(** * ProductivityPal: scheduling and conversation collection of the Discord bot

    A shallow embedding of [discordbot.py]: the three workflow classes
    [ReminderBot], [ManagerBot] and [JobTracker], the pieces of the Python
    runtime they call ([datetime], [random], [range], [asyncio.create_task])
    and the Discord gateway as they use it (channel lookup, posting, waiting
    for a message that passes a predicate).

    Everything outside the process is an input of the [world]: the wall clock,
    the channel cache, the entropy of [random], the answers of the text
    generation service.  Everything the process leaves behind is an output of
    the [world]: the messages posted, the JSON files written, the lines
    printed, the asyncio tasks created. *)

From stdpp Require Import gmap strings list pretty.

Local Open Scope string_scope.
Local Open Scope list_scope.
Local Open Scope Z_scope.

(** ** The Python runtime *)

(** A source of values read one after the other: successive clock readings,
    successive draws of entropy, successive states of a cache. *)
Definition feed (A : Type) : Type := nat → A.

Definition feed_next {A} (f : feed A) : A * feed A := (f 0%nat, λ n, f (S n)).

Module datetime.

(** A naive [datetime.datetime].  The calendar date is kept as its proleptic
    Gregorian ordinal ([toordinal()]: day 1 is Monday 0001-01-01); the other
    fields are the object's own. *)
Record t := mk {
  ordinal : Z;
  hour : Z;
  minute : Z;
  second : Z;
  microsecond : Z
}.

Definition valid (d : t) : Prop :=
  0 ≤ hour d < 24 ∧ 0 ≤ minute d < 60 ∧ 0 ≤ second d < 60
  ∧ 0 ≤ microsecond d < 1000000.

(** A [timedelta] is an exact number of microseconds. *)
Definition timedelta : Type := Z.
Definition us_per_second : Z := 1000000.
Definition us_per_minute : Z := 60 * us_per_second.
Definition us_per_hour : Z := 60 * us_per_minute.
Definition us_per_day : Z := 24 * us_per_hour.
Definition minutes (m : Z) : timedelta := m * us_per_minute.
Definition days (d : Z) : timedelta := d * us_per_day.

(** Microseconds since the midnight that starts day 0. *)
Definition to_us (d : t) : Z :=
  ordinal d * us_per_day + hour d * us_per_hour + minute d * us_per_minute
  + second d * us_per_second + microsecond d.

Definition of_us (n : Z) : t :=
  {| ordinal := n `div` us_per_day;
     hour := (n `mod` us_per_day) `div` us_per_hour;
     minute := (n `mod` us_per_hour) `div` us_per_minute;
     second := (n `mod` us_per_minute) `div` us_per_second;
     microsecond := n `mod` us_per_second |}.

(** [d + td], [a - b] and [a < b] on datetimes, each through the instants
    the datetimes stand for. *)
Definition add (d : t) (td : timedelta) : t := of_us (to_us d + td).
Definition sub (a b : t) : timedelta := to_us a - to_us b.
Definition ltb (a b : t) : bool := bool_decide (to_us a < to_us b).

(** [d.replace(hour=h, minute=m, second=s)]: the date and the microsecond
    are those of [d]. *)
Definition replace (d : t) (h m s : Z) : t :=
  {| ordinal := ordinal d; hour := h; minute := m; second := s;
     microsecond := microsecond d |}.

(** [d.weekday()]: Monday is 0, Sunday is 6. *)
Definition weekday (d : t) : Z := (ordinal d + 6) `mod` 7.

(** 00:00:00.000000 of the day of [d], and [h]:00:00.000000 of that day. *)
Definition midnight_us (d : t) : Z := ordinal d * us_per_day.
Definition at_hour_us (d : t) (h : Z) : Z := midnight_us d + h * us_per_hour.

End datetime.

(** [strftime] is the C library's; the development holds for any rendering. *)
Class Strftime := strftime : string → datetime.t → string.

(** [range(start, stop, step)] for a positive [step].  ([range] raises
    [ValueError] for a zero step; a negative step from 0 up to 24 gives the
    empty range.) *)
Definition py_range (start stop step : Z) : list Z :=
  if decide (0 < step)
  then (λ j : nat, start + Z.of_nat j * step)
         <$> seq 0 (Z.to_nat ((stop - start + step - 1) `div` step))
  else [].

(** ** asyncio tasks *)

(** The coroutine a task runs: the manager's [schedule_check(seconds_delay)],
    the tracker's [schedule_job_check(seconds_delay)], or the loop that
    [tasks.loop(hours=...)] builds around [reminder_loop].  A delay is
    counted in microseconds ([timedelta.total_seconds()] is this number over
    10^6).  [i] records the loop variable the manager's coroutine was created
    under; the coroutine itself does not read it. *)
Inductive coroutine :=
  | Schedule_check (seconds_delay : Z) (i : Z)
  | Schedule_job_check (seconds_delay : Z)
  | Reminder_loop (hours : Z).

Record task := mk_task {
  coro : coroutine;
  cancelled : bool
}.

Definition task_cancel (t : task) : task :=
  {| coro := coro t; cancelled := true |}.

(** The delay the coroutine of a task was called with; the loop's takes
    none, and nothing reads its 0. *)
Definition seconds_delay (t : task) : Z :=
  match coro t with
  | Schedule_check seconds_delay _ | Schedule_job_check seconds_delay =>
      seconds_delay
  | Reminder_loop _ => 0
  end.

(** The window a task of the manager was created for. *)
Definition window (t : task) : option Z :=
  match coro t with
  | Schedule_check _ i => Some i
  | Schedule_job_check _ | Reminder_loop _ => None
  end.

Arguments seconds_delay !_ /.
Arguments window !_ /.

Definition active (t : task) : bool := negb (cancelled t).

(** ** The Discord gateway, as the bot uses it *)

Record channel := mk_channel { channel_id : Z }.

(** [str(author)] and [author.bot]. *)
Record author := mk_author { author_str : string; bot : bool }.

Record message_reference := mk_reference { message_id : option Z }.

Record message := mk_message {
  msg_id : Z;
  msg_channel : channel;
  msg_author : author;
  content : string;
  reference : option message_reference
}.

(** [a == b] on channels compares their ids. *)
Definition channel_eqb (a b : channel) : bool :=
  bool_decide (channel_id a = channel_id b).

Record embed := mk_embed {
  title : string;
  description : string;
  color : Z;
  timestamp : datetime.t;
  fields : list (string * string);
  footer : string
}.

Definition add_field (name value : string) (e : embed) : embed :=
  {| title := title e; description := description e; color := color e;
     timestamp := timestamp e; fields := fields e ++ [(name, value)];
     footer := footer e |}.

Definition set_footer (text : string) (e : embed) : embed :=
  {| title := title e; description := description e; color := color e;
     timestamp := timestamp e; fields := fields e; footer := text |}.

Inductive body :=
  | Embed (e : embed)
  | Text (s : string).

(** What the bot sent: a message posted to a channel (with the id Discord
    gave it), or a reaction added to a message. *)
Inductive delivery :=
  | Posted (ch : channel) (sent_id : Z) (b : body)
  | Reacted (to_id : Z) (emoji : string).

(** What the gateway hands to a pending [wait_for('message', ...)]: a message
    event, or the lapse of the wait's 1800 second timer. *)
Inductive event :=
  | on_message (m : message)
  | timer_elapsed.

(** The text generation service: a text, or a raised [Exception]. *)
Inductive generated :=
  | Response (text : string)
  | Raised (error : string).

(** ** Persisted state *)

(** One entry of [ManagerBot.conversations]. *)
Record conversation := mk_conversation {
  conv_timestamp : option string;
  conv_user : string;
  conv_user_status : string;
  conv_bot_response : string
}.

(** One entry of [JobTracker.applications]. *)
Record application := mk_application {
  company : string;
  date : option string;
  status : string;
  notes : string
}.

(** The JSON documents [save_state] dumps, one shape per workflow. *)
Inductive file :=
  | reminder_state_json (reminder_count : Z) (last_remind_time : option string)
  | manager_state_json (conversations : list conversation)
                       (last_check_time : option string)
  | job_applications_json (applications : list application)
                          (last_check_date : option string).

(** ** The world around the bot *)

Record world := mk_world {
  clock : feed datetime.t;              (* successive [datetime.now()] *)
  channels : feed (Z → option channel); (* successive [bot.get_channel] caches *)
  entropy : feed Z;                     (* what [random] draws from *)
  genai : string → generated;           (* [generate_content(prompt).text] *)
  next_message_id : Z;                  (* the id Discord gives the next post *)
  tasks : list task;                    (* every task created, by handle *)
  disk : gmap string file;
  outbox : list delivery;
  stdout : list string
}.

Definition with_clock (c : feed datetime.t) (w : world) : world :=
  mk_world c (channels w) (entropy w) (genai w) (next_message_id w) (tasks w)
           (disk w) (outbox w) (stdout w).
Definition with_channels (c : feed (Z → option channel)) (w : world) : world :=
  mk_world (clock w) c (entropy w) (genai w) (next_message_id w) (tasks w)
           (disk w) (outbox w) (stdout w).
Definition with_entropy (e : feed Z) (w : world) : world :=
  mk_world (clock w) (channels w) e (genai w) (next_message_id w) (tasks w)
           (disk w) (outbox w) (stdout w).
Definition with_tasks (ts : list task) (w : world) : world :=
  mk_world (clock w) (channels w) (entropy w) (genai w) (next_message_id w) ts
           (disk w) (outbox w) (stdout w).
Definition with_disk (d : gmap string file) (w : world) : world :=
  mk_world (clock w) (channels w) (entropy w) (genai w) (next_message_id w)
           (tasks w) d (outbox w) (stdout w).

(** [datetime.now()] *)
Definition datetime_now (w : world) : datetime.t * world :=
  let '(d, c) := feed_next (clock w) in (d, with_clock c w).

(** [bot.get_channel(channel_id)]: the channel, or [None]. *)
Definition get_channel (cid : Z) (w : world) : option channel * world :=
  let '(cache, c) := feed_next (channels w) in (cache cid, with_channels c w).

(** [random.randint(lo, hi)], both ends included ([lo <= hi]). *)
Definition randint (lo hi : Z) (w : world) : Z * world :=
  let '(e, es) := feed_next (entropy w) in
  (lo + e `mod` (hi - lo + 1), with_entropy es w).

(** [asyncio.create_task(coro)]: the new task's handle. *)
Definition create_task (t : task) (w : world) : nat * world :=
  (length (tasks w), with_tasks (tasks w ++ [t]) w).

(** [task.cancel()] *)
Definition cancel (handle : nat) (w : world) : world :=
  with_tasks (alter task_cancel handle (tasks w)) w.

(** [await channel.send(...)]: the id of the message posted. *)
Definition send (ch : channel) (b : body) (w : world) : Z * world :=
  (next_message_id w,
   mk_world (clock w) (channels w) (entropy w) (genai w) (next_message_id w + 1)
            (tasks w) (disk w) (outbox w ++ [Posted ch (next_message_id w) b])
            (stdout w)).

(** [await message.add_reaction(emoji)] *)
Definition add_reaction (m : message) (emoji : string) (w : world) : world :=
  mk_world (clock w) (channels w) (entropy w) (genai w) (next_message_id w)
           (tasks w) (disk w) (outbox w ++ [Reacted (msg_id m) emoji]) (stdout w).

(** [print(line)] *)
Definition print (line : string) (w : world) : world :=
  mk_world (clock w) (channels w) (entropy w) (genai w) (next_message_id w)
           (tasks w) (disk w) (outbox w) (stdout w ++ [line]).

(** [json.dump(doc, open(path, 'w'))].  The write goes through: the [except]
    branch of each [save_state], which only prints, is for a file system that
    refuses it. *)
Definition json_dump (path : string) (doc : file) (w : world) : world :=
  with_disk (<[path := doc]> (disk w)) w.

(** How many of the tasks created so far are still armed. *)
Definition armed (w : world) : nat := length (filter (λ t, active t = true) (tasks w)).



(** [bot.wait_for('message', check=check, timeout=1800)] over the events the
    gateway dispatches while the wait is pending: the first message that
    passes [check], [asyncio.TimeoutError] when the timer elapses first, and
    still waiting when neither has happened yet. *)
Inductive waited :=
  | Reply (response : message) (later : list event)
  | TimeoutError (later : list event)
  | Waiting.

Fixpoint wait_for (check : message → bool) (events : list event) : waited :=
  match events with
  | [] => Waiting
  | timer_elapsed :: later => TimeoutError later
  | on_message m :: later =>
      if check m then Reply m later else wait_for check later
  end.

(** Whether an action has returned, or is still suspended in [wait_for]. *)
Inductive progress := Returned | Suspended.

(** What a scheduling coroutine does, in order: an [asyncio.sleep] (counted
    in microseconds), the workflow's action, the call that re-arms. *)
Inductive step :=
  | Sleep (us : Z)
  | Action
  | Rearm.

(** The time a coroutine's steps take up to its last one, when the action
    takes [took]: [asyncio.sleep] returns at once for a delay that is not
    positive. *)
Definition elapsed (steps : list step) (took : Z) : Z :=
  foldr (λ s total,
           match s with
           | Sleep us => Z.max 0 us + total
           | Action => took + total
           | Rearm => total
           end) 0 steps.

(** The instant at which each step of a coroutine begins, for a coroutine
    that starts at [start], whose action takes [took], and that is not
    cancelled on its way. *)
Fixpoint timeline (steps : list step) (start took : Z) : list (Z * step) :=
  match steps with
  | [] => []
  | s :: rest =>
      (start, s)
      :: timeline rest
           (start + match s with
                    | Sleep us => Z.max 0 us
                    | Action => took
                    | Rearm => 0
                    end) took
  end.

(** [CONFIG], as far as the workflows read it. *)
Record config := mk_config {
  REMINDER_CHANNEL_ID : Z;
  STATUS_CHANNEL_ID : Z;
  JOB_CHANNEL_ID : Z;
  DATA_DIR : string;
  REMINDER_INTERVAL_HOURS : Z
}.

(** The file [Path(DATA_DIR) / name]. *)
Definition data_file (CONFIG : config) (name : string) : string :=
  DATA_DIR CONFIG +:+ "/" +:+ name.

(** ** Strings *)

Definition nl : string := String (Ascii.ascii_of_nat 10) "".
Definition dquote : string := String (Ascii.ascii_of_nat 34) "".

(** [s.lower()] on the ASCII letters.  ([str.lower] also lowers capitals
    outside ASCII; none of them becomes a letter of the keywords [lower] is
    compared with here.) *)
Definition lower_ascii (c : Ascii.ascii) : Ascii.ascii :=
  let n := Ascii.N_of_ascii c in
  if bool_decide (65 ≤ n ≤ 90)%N then Ascii.ascii_of_N (n + 32) else c.

Fixpoint lower (s : string) : string :=
  match s with
  | EmptyString => EmptyString
  | String c rest => String (lower_ascii c) (lower rest)
  end.

(** [enumerate(l, start)] *)
Definition enumerate {A} (start : nat) (l : list A) : list (nat * A) :=
  zip (seq start (length l)) l.

(** The pictographs that open some titles and field names, and the check
    mark of the acknowledging reaction, are written by name. *)
Definition white_check_mark : string := ":white_check_mark:".

(** * ReminderBot *)

Module ReminderBot.

Record t := mk {
  reminder_count : Z;
  last_remind_time : option string
}.

Section methods.
Context (CONFIG : config) `{!Strftime}.

Definition save_state (self : t) (w : world) : world :=
  json_dump (data_file CONFIG "reminder_state.json")
            (reminder_state_json (reminder_count self) (last_remind_time self)) w.

Definition get_time_of_day (w : world) : string * world :=
  let '(now, w) := datetime_now w in
  let hour := datetime.hour now in
  (if bool_decide (5 ≤ hour < 12) then "morning"
   else if bool_decide (12 ≤ hour < 17) then "afternoon"
   else if bool_decide (17 ≤ hour < 21) then "evening"
   else "night", w).

Definition weekend_field : string * string :=
  ("OS Concepts (Weekend Special)", "Study 2 OS concepts").

Definition send_reminder (self : t) (w : world) : t * world :=
  let self := mk (reminder_count self + 1) (last_remind_time self) in
  let '(current_time, w) := datetime_now w in
  let self :=
    mk (reminder_count self) (Some (strftime "%Y-%m-%d %H:%M:%S" current_time)) in
  let '(time_of_day, w) := get_time_of_day w in
  let is_weekend := bool_decide (5 ≤ datetime.weekday current_time) in
  let '(channel, w) := get_channel (REMINDER_CHANNEL_ID CONFIG) w in
  match channel with
  | None =>
      let w := print ("Reminder Bot: Could not find channel with ID "
                      +:+ pretty (REMINDER_CHANNEL_ID CONFIG)) w in
      let w := print "Reminder Bot: Skipping this reminder cycle." w in
      (self, w)
  | Some channel =>
      let embed :=
        mk_embed ("Productivity Reminder (" +:+ time_of_day +:+ ")")
                 ("Here's your " +:+ time_of_day
                  +:+ " reminder to stay on track!")
                 0x00ff00 current_time [] "" in
      let embed := add_field "DSA Questions" "Complete 14 DSA questions" embed in
      let embed :=
        if is_weekend
        then add_field weekend_field.1 weekend_field.2 embed
        else embed in
      let embed :=
        add_field "Personal Projects" "Work on your personal projects" embed in
      let embed :=
        add_field "Office Projects" "Make progress on office assignments" embed in
      let embed :=
        set_footer ("Reminder #" +:+ pretty (reminder_count self)) embed in
      let '(_, w) := send channel (Embed embed) w in
      (self, save_state self w)
  end.

(** [load_state]: the fields come from the state file when there is one
    ([state.get] gives its default for a key the document lacks); without
    a file they stay as they are.  The disk holds documents [save_state]
    wrote; the [except] branch, which only prints, is for a file that does
    not parse. *)
Definition load_state (self : t) (w : world) : t * world :=
  match disk w !! data_file CONFIG "reminder_state.json" with
  | Some state =>
      let self :=
        match state with
        | reminder_state_json count time => mk count time
        | _ => mk 0 None
        end in
      (self, print "Reminder Bot: State loaded successfully" w)
  | None =>
      (self, print "Reminder Bot: No previous state found, starting fresh" w)
  end.

(** The body of the [tasks.loop]; when the library calls it is the library's. *)
Definition reminder_loop (self : t) (w : world) : t * world :=
  send_reminder self w.

(** [__init__]: the fields, [reminder_loop.start()], which creates the task
    the loop runs in, then [load_state]. *)
Definition init (w : world) : t * world :=
  let self := mk 0 None in
  let '(_, w) :=
    create_task (mk_task (Reminder_loop (REMINDER_INTERVAL_HOURS CONFIG)) false)
                w in
  load_state self w.

End methods.
End ReminderBot.

(** * ManagerBot *)

Module ManagerBot.

(** [status_checks] maps a window's start hour to the handle of its task. *)
Record t := mk {
  conversations : list conversation;
  last_check_time : option string;
  status_checks : gmap Z nat
}.

Definition fallback : string :=
  "I'm having trouble connecting to my AI services. Let's check in again later, but in the meantime, remember to take breaks when needed and stay focused on your priorities.".

Definition timeout_notice : string :=
  "No status update received. I'll check in again later!".

Section methods.
Context (CONFIG : config) `{!Strftime}.

Definition save_state (self : t) (w : world) : world :=
  json_dump (data_file CONFIG "manager_state.json")
            (manager_state_json (conversations self) (last_check_time self)) w.

(** [for task in self.status_checks.values(): task.cancel()] *)
Definition cancel_all (handles : list nat) (w : world) : world :=
  foldl (λ w task, cancel task w) w handles.

(** One turn of the loop over [range(0, 24, REMINDER_INTERVAL_HOURS)]. *)
Definition arm (current_time : datetime.t) (st : t * world) (i : Z) : t * world :=
  let '(self, w) := st in
  let '(random_minutes, w) :=
    randint 0 (REMINDER_INTERVAL_HOURS CONFIG * 60 - 1) w in
  let check_time :=
    datetime.add (datetime.replace current_time i 0 0)
                 (datetime.minutes random_minutes) in
  let check_time :=
    if datetime.ltb check_time current_time
    then datetime.add check_time (datetime.days 1)
    else check_time in
  let seconds_until_check := datetime.sub check_time current_time in
  let '(task, w) :=
    create_task (mk_task (Schedule_check seconds_until_check i) false) w in
  let self :=
    mk (conversations self) (last_check_time self)
       (<[i := task]> (status_checks self)) in
  (self, print ("Manager Bot: Check scheduled at "
                +:+ strftime "%H:%M" check_time) w).

Definition schedule_random_checks (self : t) (w : world) : t * world :=
  let w := cancel_all (map_to_list (status_checks self)).*2 w in
  let self := mk (conversations self) (last_check_time self) ∅ in
  let '(current_time, w) := datetime_now w in
  foldl (arm current_time) (self, w)
        (py_range 0 24 (REMINDER_INTERVAL_HOURS CONFIG)).

Definition prompt (user_status : string) : string :=
  String.concat nl [
    "";
    "            Act as a supportive team leader and personal productivity coach. ";
    "            The user has shared their current status: "
      +:+ dquote +:+ user_status +:+ dquote;
    "            ";
    "            Respond in 3-5 sentences with:";
    "            1. Specific acknowledgment of their work";
    "            2. Motivational encouragement that's genuine (not generic)";
    "            3. One practical suggestion or question to help them improve or move forward";
    "            4. Speak as a supportive leader (not a micromanaging boss)";
    "            ";
    "            Keep your tone positive but authentic.";
    "            " ].

(** The [try] holds the whole call; [except Exception] turns whatever it
    raises into the fallback text. *)
Definition get_gemini_response (user_status : string) (w : world)
  : string * world :=
  match genai w (prompt user_status) with
  | Response text => (text, w)
  | Raised error =>
      (fallback, print ("Error getting Gemini response: " +:+ error) w)
  end.

(** The predicate handed to [wait_for]. *)
Definition check (channel : channel) (prompt_id : Z) (message : message) : bool :=
  channel_eqb (msg_channel message) channel
  && negb (bot (msg_author message))
  && match reference message with
     | Some ref => bool_decide (message_id ref = Some prompt_id)
     | None => false
     end.

Definition check_status (events : list event) (self : t) (w : world)
  : t * world * progress :=
  let '(now, w) := datetime_now w in
  let self :=
    mk (conversations self) (Some (strftime "%Y-%m-%d %H:%M:%S" now))
       (status_checks self) in
  let '(current_time, w) := datetime_now w in
  let '(channel, w) := get_channel (STATUS_CHANNEL_ID CONFIG) w in
  match channel with
  | None =>
      let w := print ("Manager Bot: Could not find channel with ID "
                      +:+ pretty (STATUS_CHANNEL_ID CONFIG)) w in
      let w := print "Manager Bot: Skipping this status check." w in
      (self, w, Returned)
  | Some channel =>
      let embed :=
        mk_embed "Status Check" "Let me know what you're currently working on."
                 0x3498db current_time [] "" in
      let embed :=
        add_field "Instructions"
          "Please share what you're working on, any challenges you're facing, and how you're feeling about your progress."
          embed in
      let embed :=
        set_footer "Reply to this message with your status update" embed in
      let '(status_message, w) := send channel (Embed embed) w in
      match wait_for (check channel status_message) events with
      | Reply response _ =>
          let '(manager_response, w) :=
            get_gemini_response (content response) w in
          let self :=
            mk (conversations self
                ++ [mk_conversation (last_check_time self)
                                    (author_str (msg_author response))
                                    (content response) manager_response])
               (last_check_time self) (status_checks self) in
          let embed :=
            mk_embed "Manager Feedback" manager_response 0x9b59b6
                     current_time [] "" in
          let embed :=
            set_footer "Respond to stay motivated and accountable" embed in
          let '(_, w) := send channel (Embed embed) w in
          (self, save_state self w, Returned)
      | TimeoutError _ =>
          let '(_, w) := send channel (Text timeout_notice) w in
          (self, w, Returned)
      | Waiting => (self, w, Suspended)
      end
  end.

Definition load_state (self : t) (w : world) : t * world :=
  match disk w !! data_file CONFIG "manager_state.json" with
  | Some state =>
      let self :=
        match state with
        | manager_state_json convs time => mk convs time (status_checks self)
        | _ => mk [] None (status_checks self)
        end in
      (self, print "Manager Bot: State loaded successfully" w)
  | None =>
      (self, print "Manager Bot: No previous state found, starting fresh" w)
  end.

(** [__init__] *)
Definition init (w : world) : t * world :=
  let self := mk [] None ∅ in
  let '(self, w) := load_state self w in
  schedule_random_checks self w.

(** The coroutine [schedule_check(seconds_delay)]; 24 * 60 * 60 seconds are
    a day. *)
Definition schedule_check (seconds_delay : Z) : list step :=
  [Sleep seconds_delay; Action; Sleep (datetime.us_per_day - seconds_delay);
   Rearm].

End methods.
End ManagerBot.

(** * JobTracker *)

Module JobTracker.

Record t := mk {
  applications : list application;
  last_check_date : option string
}.

Definition fallback : string :=
  "Great job applying to these positions! Keep tracking your applications and following up when appropriate. Remember that job searching is a numbers game - persistence is key to finding the right opportunity.".

Definition timeout_notice : string :=
  "No response received for 30 minutes. Closing job application tracking for today.".

Definition keywords : list string := ["done"; "finished"; "complete"; "end"].

(** [response.content.lower() in ['done', 'finished', 'complete', 'end']] *)
Definition terminal (content : string) : bool :=
  bool_decide (lower content ∈ keywords).

Definition no_applications_title : string := "No Applications Today".

Section methods.
Context (CONFIG : config) `{!Strftime}.

Definition save_state (self : t) (w : world) : world :=
  json_dump (data_file CONFIG "job_applications.json")
            (job_applications_json (applications self) (last_check_date self)) w.

Definition prompt (jobs_applied : list string) : string :=
  String.concat nl [
    "";
    "            As a job search coach, analyze these job applications from today:";
    "            " +:+ String.concat nl jobs_applied;
    "            ";
    "            Provide:";
    "            1. A brief analysis of the job types/industries they're targeting";
    "            2. One practical suggestion to improve their application success rate";
    "            3. Positive encouragement about their job search process";
    "            ";
    "            Keep it concise (3-4 sentences) and genuinely helpful.";
    "            " ].

Definition get_application_analysis (jobs_applied : list string) (w : world)
  : string * world :=
  match genai w (prompt jobs_applied) with
  | Response text => (text, w)
  | Raised error =>
      (fallback, print ("Error getting Gemini analysis: " +:+ error) w)
  end.

Definition check (channel : channel) (prompt_id : Z) (message : message) : bool :=
  channel_eqb (msg_channel message) channel
  && negb (bot (msg_author message))
  && match reference message with
     | Some ref => bool_decide (message_id ref = Some prompt_id)
     | None => false
     end.

(** The [while collecting] loop, with the [wait_for] of each turn unfolded
    over the events: a message that fails [check] leaves the wait pending;
    one that passes it is the turn's [response]. *)
Fixpoint collect (channel : channel) (prompt_id : Z) (events : list event)
    (jobs_applied : list string) (w : world)
  : list string * world * progress :=
  match events with
  | [] => (jobs_applied, w, Suspended)
  | timer_elapsed :: _ =>
      let '(_, w) := send channel (Text timeout_notice) w in
      (jobs_applied, w, Returned)
  | on_message response :: later =>
      if check channel prompt_id response then
        if terminal (content response)
        then (jobs_applied, w, Returned)
        else collect channel prompt_id later
                     (jobs_applied ++ [content response])
                     (add_reaction response white_check_mark w)
      else collect channel prompt_id later jobs_applied w
  end.

Definition new_application (self : t) (job : string) : application :=
  mk_application job (last_check_date self) "Applied" "".

Definition check_applications (events : list event) (self : t) (w : world)
  : t * world * progress :=
  let '(current_time, w) := datetime_now w in
  let self := mk (applications self) (Some (strftime "%Y-%m-%d" current_time)) in
  let '(channel, w) := get_channel (JOB_CHANNEL_ID CONFIG) w in
  match channel with
  | None =>
      let w := print ("Job Tracker: Could not find channel with ID "
                      +:+ pretty (JOB_CHANNEL_ID CONFIG)) w in
      let w := print "Job Tracker: Skipping this application check." w in
      (self, w, Returned)
  | Some channel =>
      let embed :=
        mk_embed "Job Application Tracker"
                 "Please list all jobs you applied to today."
                 0xe74c3c current_time [] "" in
      let embed :=
        add_field "Instructions"
          "Reply to this message with each job application on a new line. When you're done, reply with 'done' in a separate message."
          embed in
      let embed := add_field "Format" "Company Name - Position" embed in
      let embed :=
        set_footer ("Date: " +:+ default "None" (last_check_date self)) embed in
      let '(tracker_message, w) := send channel (Embed embed) w in
      match collect channel tracker_message events [] w with
      | (_, w, Suspended) => (self, w, Suspended)
      | ([], w, Returned) =>
          let embed :=
            mk_embed no_applications_title
              "No applications recorded today. Remember, consistent application is key to finding opportunities!"
              0xf39c12 current_time [] "" in
          let '(_, w) := send channel (Embed embed) w in
          (self, save_state self w, Returned)
      | (jobs_applied, w, Returned) =>
          let new_applications := new_application self <$> jobs_applied in
          let self :=
            mk (applications self ++ new_applications) (last_check_date self) in
          let '(analysis, w) := get_application_analysis jobs_applied w in
          let embed :=
            mk_embed ("Application Analysis ("
                      +:+ pretty (length jobs_applied) +:+ " jobs)")
                     analysis 0x2ecc71 current_time [] "" in
          let embed :=
            foldl (λ e '(i, job), add_field ("Job " +:+ pretty i) job e)
                  embed (enumerate 1 jobs_applied) in
          let embed :=
            set_footer "Keep up the great work on your job search!" embed in
          let '(_, w) := send channel (Embed embed) w in
          (self, save_state self w, Returned)
      end
  end.

Definition load_state (self : t) (w : world) : t * world :=
  match disk w !! data_file CONFIG "job_applications.json" with
  | Some state =>
      let self :=
        match state with
        | job_applications_json apps day => mk apps day
        | _ => mk [] None
        end in
      (self, print "Job Tracker: Data loaded successfully" w)
  | None =>
      (self, print "Job Tracker: No previous data found, starting fresh" w)
  end.

(** [schedule_daily_check], on the field [job_task] (the handle of the
    tracker's task, if any): the new value of the field.  The task runs
    [schedule_job_check(seconds_until_target)]. *)
Definition schedule_daily_check (job_task : option nat) (w : world)
  : option nat * world :=
  let w := match job_task with Some task => cancel task w | None => w end in
  let '(now, w) := datetime_now w in
  let target_time := datetime.replace now 20 0 0 in
  let target_time :=
    if datetime.ltb target_time now
    then datetime.add target_time (datetime.days 1)
    else target_time in
  let seconds_until_target := datetime.sub target_time now in
  let '(task, w) :=
    create_task (mk_task (Schedule_job_check seconds_until_target) false) w in
  (Some task, print ("Job Tracker: Check scheduled for "
                     +:+ strftime "%Y-%m-%d %H:%M" target_time) w).

(** The coroutine [schedule_job_check(seconds_delay)]. *)
Definition schedule_job_check (seconds_delay : Z) : list step :=
  [Sleep seconds_delay; Action; Sleep datetime.us_per_day; Rearm].

(** [__init__]: the tracker and its [job_task]. *)
Definition init (w : world) : t * option nat * world :=
  let self := mk [] None in
  let '(self, w) := load_state self w in
  let '(job_task, w) := schedule_daily_check None w in
  (self, job_task, w).

End methods.
End JobTracker.

(** * Commands *)

(** [!remind]: the same action as the loop's, then a confirmation in the
    channel the command came from. *)
Definition remind_command (CONFIG : config) `{!Strftime} (ctx : channel)
    (reminder_bot : ReminderBot.t) (w : world) : ReminderBot.t * world :=
  let '(reminder_bot, w) := ReminderBot.send_reminder CONFIG reminder_bot w in
  let '(_, w) := send ctx (Text "Manual reminder sent!") w in
  (reminder_bot, w).

(** [!status] and [!jobs]: the confirmation follows the action, once it has
    returned. *)
Definition status_command (CONFIG : config) `{!Strftime} (ctx : channel)
    (events : list event) (manager_bot : ManagerBot.t) (w : world)
  : ManagerBot.t * world * progress :=
  match ManagerBot.check_status CONFIG events manager_bot w with
  | (manager_bot, w, Returned) =>
      let '(_, w) := send ctx (Text "Manual status check initiated!") w in
      (manager_bot, w, Returned)
  | (manager_bot, w, Suspended) => (manager_bot, w, Suspended)
  end.

Definition jobs_command (CONFIG : config) `{!Strftime} (ctx : channel)
    (events : list event) (job_tracker : JobTracker.t) (w : world)
  : JobTracker.t * world * progress :=
  match JobTracker.check_applications CONFIG events job_tracker w with
  | (job_tracker, w, Returned) =>
      let '(_, w) :=
        send ctx (Text "Manual job application tracker initiated!") w in
      (job_tracker, w, Returned)
  | (job_tracker, w, Suspended) => (job_tracker, w, Suspended)
  end.

(** [check_channels]: whether all three channels resolve; the missing ones
    are printed by name.  (The warning signs around the first line are left
    out.) *)
Definition missing_line (entry : string * Z) : string :=
  "  - " +:+ entry.1 +:+ ": " +:+ pretty entry.2.

Definition check_channels (CONFIG : config) (w : world) : bool * world :=
  let missing_channels := [] in
  let '(reminder_channel, w) := get_channel (REMINDER_CHANNEL_ID CONFIG) w in
  let missing_channels :=
    match reminder_channel with
    | None => missing_channels
              ++ [("REMINDER_CHANNEL_ID", REMINDER_CHANNEL_ID CONFIG)]
    | Some _ => missing_channels
    end in
  let '(status_channel, w) := get_channel (STATUS_CHANNEL_ID CONFIG) w in
  let missing_channels :=
    match status_channel with
    | None => missing_channels
              ++ [("STATUS_CHANNEL_ID", STATUS_CHANNEL_ID CONFIG)]
    | Some _ => missing_channels
    end in
  let '(job_channel, w) := get_channel (JOB_CHANNEL_ID CONFIG) w in
  let missing_channels :=
    match job_channel with
    | None => missing_channels ++ [("JOB_CHANNEL_ID", JOB_CHANNEL_ID CONFIG)]
    | Some _ => missing_channels
    end in
  match missing_channels with
  | _ :: _ =>
      let w := print (nl +:+ "CHANNEL ACCESS PROBLEMS DETECTED") w in
      let w := print "The bot cannot access the following channels:" w in
      let w := foldl (λ w entry, print (missing_line entry) w) w
                     missing_channels in
      let w := print (nl +:+ "Possible solutions:") w in
      let w := print "1. Verify the channel IDs are correct" w in
      let w :=
        print "2. Ensure the bot has been invited with correct permissions" w in
      let w := print "3. Check if the channels exist in your Discord server" w in
      let w :=
        print ("4. Make sure the bot has 'View Channel' permissions for these channels"
               +:+ nl) w in
      (false, w)
  | [] => (true, print "All channels verified and accessible!" w)
  end.

(** [send_welcome_message(channel_id, channel_name)]: whether the message
    was sent. *)
Definition send_welcome_message (channel_id : Z) (channel_name : string)
    (w : world) : bool * world :=
  let '(channel, w) := get_channel channel_id w in
  match channel with
  | None =>
      (false,
       print ("Could not send welcome message to " +:+ channel_name
              +:+ " channel (ID: " +:+ pretty channel_id +:+ ")") w)
  | Some channel =>
      let '(current_time, w) := datetime_now w in
      let embed :=
        mk_embed "Hello There!"
                 "I'm your Productivity Assistant Bot! Nice to meet you!"
                 0x1abc9c current_time [] "" in
      let embed :=
        add_field "What I Can Do"
          "I'll help you stay productive with reminders, status checks, and job application tracking."
          embed in
      let embed :=
        add_field "Getting Started"
                  "Type `!help` to see all available commands." embed in
      let embed := set_footer "I'm here to help you succeed!" embed in
      let '(_, w) := send channel (Embed embed) w in
      (true,
       print ("Welcome message sent to " +:+ channel_name +:+ " channel") w)
  end.

(** [!welcome], in the channel [ctx] whose name is [channel_name]. *)
Definition welcome_command (ctx : channel) (channel_name : string) (w : world)
  : world :=
  let '(_, w) := send_welcome_message (channel_id ctx) channel_name w in
  let '(_, w) := send ctx (Text "Welcome message sent!") w in
  w.

(** What [on_ready] binds the globals to: the three workflows, and the
    tracker's [job_task]. *)
Record workflows := mk_workflows {
  reminder_bot : ReminderBot.t;
  manager_bot : ManagerBot.t;
  job_tracker : JobTracker.t;
  job_task : option nat
}.

(** [on_ready], for the bot user [user_name] ([user_id]). *)
Definition on_ready (CONFIG : config) `{!Strftime} (user_name : string)
    (user_id : Z) (w : world) : workflows * world :=
  let w := print ("Bot logged in as " +:+ user_name +:+ " (" +:+ pretty user_id
                  +:+ ")") w in
  let '(channels_ok, w) := check_channels CONFIG w in
  let w :=
    if channels_ok then w
    else
      let w :=
        print (nl +:+ "WARNING: Some channels are inaccessible. The bot will continue to run, but some features may not work properly.")
              w in
      print ("Please check the channel IDs in your .env file and ensure the bot has proper permissions."
             +:+ nl) w in
  let w := print (nl +:+ "Sending welcome messages to channels...") w in
  let channels_with_welcome := 0%nat in
  let channels :=
    [(REMINDER_CHANNEL_ID CONFIG, "Reminder");
     (STATUS_CHANNEL_ID CONFIG, "Status");
     (JOB_CHANNEL_ID CONFIG, "Job Tracker")] in
  let '(channels_with_welcome, w) :=
    foldl (λ '(channels_with_welcome, w) '(channel_id, channel_name),
             let '(sent, w) := send_welcome_message channel_id channel_name w in
             (if sent then S channels_with_welcome else channels_with_welcome,
              w))
          (channels_with_welcome, w) channels in
  let w :=
    print ("Welcome messages sent to " +:+ pretty channels_with_welcome
           +:+ " out of " +:+ pretty (length channels) +:+ " channels" +:+ nl)
          w in
  let '(reminder_bot, w) := ReminderBot.init CONFIG w in
  let '(manager_bot, w) := ManagerBot.init CONFIG w in
  let '(job_tracker, job_task, w) := JobTracker.init CONFIG w in
  (mk_workflows reminder_bot manager_bot job_tracker job_task,
   print "All systems initialized successfully!" w).

(** * Vocabulary of the properties *)

(** A message is a reply to the prompt [prompt_id] posted in [channel]. *)
Definition correlated (channel : channel) (prompt_id : Z) (m : message) : Prop :=
  channel_id (msg_channel m) = channel_id channel
  ∧ bot (msg_author m) = false
  ∧ ∃ ref, reference m = Some ref ∧ message_id ref = Some prompt_id.

(** Every event of [events] is a message that is no such reply. *)
Definition unrelated (channel : channel) (prompt_id : Z) (events : list event)
  : Prop :=
  Forall (λ e, ∃ m, e = on_message m ∧ ¬ correlated channel prompt_id m) events.

(** An event that ends the job tracker's collection: the lapse of the timer,
    or a reply whose text is, letter case apart, one of the keywords. *)
Definition closes (channel : channel) (prompt_id : Z) (e : event) : Prop :=
  e = timer_elapsed
  ∨ ∃ m, e = on_message m ∧ correlated channel prompt_id m
         ∧ lower (content m) ∈ JobTracker.keywords.

(** A reply that the job tracker takes as one more application. *)
Definition job_reply (channel : channel) (prompt_id : Z) (m : message) : Prop :=
  correlated channel prompt_id m ∧ lower (content m) ∉ JobTracker.keywords.

(** The reminder state file holds the bot's state. *)
Definition reminder_persisted (CONFIG : config) (self : ReminderBot.t)
    (w : world) : Prop :=
  disk w !! data_file CONFIG "reminder_state.json"
  = Some (reminder_state_json (ReminderBot.reminder_count self)
                              (ReminderBot.last_remind_time self)).

(** The instant the first sleep of a task created at [now] ends. *)
Definition fire_time (now : datetime.t) (t : task) : Z :=
  datetime.to_us now + seconds_delay t.

(** [instant], moved to the next day when it lies before [now]. *)
Definition not_before (now : datetime.t) (instant : Z) : Z :=
  if bool_decide (instant < datetime.to_us now)
  then instant + datetime.us_per_day else instant.

(** [instant] lies in the window of [k] hours that starts at hour [h] of the
    day [day]. *)
Definition in_window (k h day instant : Z) : Prop :=
  day * datetime.us_per_day + h * datetime.us_per_hour ≤ instant
  < day * datetime.us_per_day + (h + k) * datetime.us_per_hour.

(** The minutes [randint(0, k*60 - 1)] draws from the entropy [e]. *)
Definition offset_of (k e : Z) : Z := e `mod` (k * 60).

(** The instant window [h] is planned at: hour [h] of today with the
    microsecond of [now], [offset_of k e] minutes later, and a day later
    when that is already past. *)
Definition planned (k : Z) (now : datetime.t) (h e : Z) : Z :=
  not_before now
    (datetime.at_hour_us now h + datetime.microsecond now
     + offset_of k e * datetime.us_per_minute).

(** The task of window [h], and the tasks of a list of windows, each with
    its own draw. *)
Definition window_task (k : Z) (now : datetime.t) (h e : Z) : task :=
  mk_task (Schedule_check (planned k now h e - datetime.to_us now) h) false.

Fixpoint window_tasks (k : Z) (now : datetime.t) (hours : list Z)
    (draws : feed Z) : list task :=
  match hours with
  | [] => []
  | h :: rest =>
      window_task k now h (draws 0%nat)
      :: window_tasks k now rest (λ n, draws (S n))
  end.

(** [w'] has the tasks and the files of [w]. *)
Definition quiet (w w' : world) : Prop :=
  tasks w' = tasks w ∧ disk w' = disk w.

(** The replies to the prompt among the events, in their order. *)
Definition replies_to (channel : channel) (prompt_id : Z) (events : list event)
  : list message :=
  omap (λ e, match e with
             | on_message m =>
                 if JobTracker.check channel prompt_id m then Some m else None
             | timer_elapsed => None
             end) events.

(** The task [schedule_daily_check] has created, if any. *)
Definition daily_task (r : option nat * world) : option task :=
  r.1 ≫= λ handle, tasks r.2 !! handle.


Definition arming (CONFIG : config) `{!Strftime} (self : ManagerBot.t)
    (w : world) (n : nat) : ManagerBot.t * world :=
  let w := ManagerBot.cancel_all
             (map_to_list (ManagerBot.status_checks self)).*2 w in
  let self :=
    ManagerBot.mk (ManagerBot.conversations self)
                  (ManagerBot.last_check_time self) ∅ in
  let '(current_time, w) := datetime_now w in
  foldl (ManagerBot.arm CONFIG current_time) (self, w)
        (take n (py_range 0 24 (REMINDER_INTERVAL_HOURS CONFIG))).





(** ** Sample inputs *)

Definition sample_config : config := mk_config 11 22 33 "./data" 3.

Definition sample_strftime : Strftime := λ fmt d, fmt.

(** Saturday 2024-05-11, 10:30:15.500000, and the Monday after it. *)
Definition sample_now : datetime.t := datetime.mk 739017 10 30 15 500000.
Definition sample_monday : datetime.t := datetime.mk 739019 10 30 15 500000.

Definition sample_channel (cid : Z) : option channel :=
  if bool_decide (cid = 0) then None else Some (mk_channel cid).

Definition sample_world (cache : Z → option channel)
    (ai : string → generated) : world :=
  mk_world (λ _, sample_now) (λ _, cache) (λ _, 0) ai 1000 [] ∅ [] [].

Definition sample_reply (cid : Z) (text : string) : message :=
  mk_message 2000 (mk_channel cid) (mk_author "user#1" false) text
             (Some (mk_reference (Some 1000))).

(** The day after [sample_now], 20:02:00.500000: a day and two minutes
    after 20:00:00.500000 of that Saturday. *)
Definition sample_rearm : datetime.t := datetime.mk 739018 20 2 0 500000.

(** A message of a bot in the status channel, replying to the prompt. *)
Definition sample_bot_message : message :=
  mk_message 2001 (mk_channel 22) (mk_author "bot#0" true) "done"
             (Some (mk_reference (Some 1000))).

(** * Properties *)

(** ** The reminder *)

Section reminder.
Context (CONFIG : config) `{!Strftime}.

Let stamp (w : world) : option string :=
  Some (strftime "%Y-%m-%d %H:%M:%S" (clock w 0%nat)).

(** The object after a firing: one more reminder counted, the time of the
    first clock reading recorded, whether or not the channel resolved. *)
Lemma send_reminder_self self w :
  (ReminderBot.send_reminder CONFIG self w).1
  = ReminderBot.mk (ReminderBot.reminder_count self + 1) (stamp w).
Proof.
  unfold ReminderBot.send_reminder, get_channel, ReminderBot.get_time_of_day,
    datetime_now; simpl.
  by destruct (channels w 0%nat _).
Qed.

(** A firing whose channel lookup fails touches neither the disk nor the
    outbox. *)
Lemma send_reminder_skipped self w :
  channels w 0%nat (REMINDER_CHANNEL_ID CONFIG) = None →
  disk (ReminderBot.send_reminder CONFIG self w).2 = disk w
  ∧ outbox (ReminderBot.send_reminder CONFIG self w).2 = outbox w.
Proof.
  intros Hnone.
  unfold ReminderBot.send_reminder, get_channel, ReminderBot.get_time_of_day,
    datetime_now; simpl.
  by rewrite Hnone.
Qed.

(** What a firing leaves on disk. *)
Lemma send_reminder_disk self w :
  disk (ReminderBot.send_reminder CONFIG self w).2
  = match channels w 0%nat (REMINDER_CHANNEL_ID CONFIG) with
    | Some _ =>
        <[data_file CONFIG "reminder_state.json" :=
            reminder_state_json (ReminderBot.reminder_count self + 1) (stamp w)]>
          (disk w)
    | None => disk w
    end.
Proof.
  unfold ReminderBot.send_reminder, get_channel, ReminderBot.get_time_of_day,
    datetime_now; simpl.
  by destruct (channels w 0%nat _).
Qed.

(** C9. A reminder that is posted carries the field "OS Concepts (Weekend
    Special)" exactly when the weekday of the firing's clock reading is 5
    (Saturday) or 6 (Sunday); on the other days no field has that name. *)
Theorem reminder_weekend_field self w ch :
  channels w 0%nat (REMINDER_CHANNEL_ID CONFIG) = Some ch →
  ∃ e,
    outbox (ReminderBot.send_reminder CONFIG self w).2
    = outbox w ++ [Posted ch (next_message_id w) (Embed e)]
    ∧ (ReminderBot.weekend_field.1 ∈ (fields e).*1
       ↔ datetime.weekday (clock w 0%nat) = 5
         ∨ datetime.weekday (clock w 0%nat) = 6).
Proof.
  intros Hch.
  unfold ReminderBot.send_reminder, get_channel, ReminderBot.get_time_of_day,
    datetime_now; simpl.
  rewrite Hch; simpl.
  eexists; split; [reflexivity|].
  assert (0 ≤ datetime.weekday (clock w 0%nat) < 7) as Hday
    by (unfold datetime.weekday; apply Z.mod_pos_bound; lia).
  case_bool_decide as Hweekend; simpl.
  - split; [lia|]. intros _. apply list_elem_of_further, list_elem_of_here.
  - split; [|lia]. intros Hin.
    repeat (apply elem_of_cons in Hin as [Hin|Hin]; [discriminate Hin|]).
    by apply elem_of_nil in Hin.
Qed.

(** C8, as the code has it.  A firing, from the loop or from [!remind],
    counts one more reminder and records the time; the state file receives
    that state when the channel resolves, and is left as it was when it does
    not. *)
Theorem reminder_persisted_when_posted self w :
  let fired := ReminderBot.reminder_loop CONFIG self w in
  let manual ctx := remind_command CONFIG ctx self w in
  fired.1 = ReminderBot.mk (ReminderBot.reminder_count self + 1) (stamp w)
  ∧ (∀ ctx, (manual ctx).1 = fired.1)
  ∧ match channels w 0%nat (REMINDER_CHANNEL_ID CONFIG) with
    | Some _ =>
        reminder_persisted CONFIG fired.1 fired.2
        ∧ ∀ ctx, reminder_persisted CONFIG (manual ctx).1 (manual ctx).2
    | None => disk fired.2 = disk w ∧ ∀ ctx, disk (manual ctx).2 = disk w
    end.
Proof.
  intros fired manual.
  assert (∀ ctx, (manual ctx).1 = fired.1 ∧ disk (manual ctx).2 = disk fired.2)
    as Hmanual.
  { intros ctx. unfold manual, remind_command, fired, ReminderBot.reminder_loop.
    by destruct (ReminderBot.send_reminder CONFIG self w). }
  assert (fired.1 = ReminderBot.mk (ReminderBot.reminder_count self + 1) (stamp w))
    as Hself by apply send_reminder_self.
  pose proof (send_reminder_disk self w) as Hdisk.
  fold (ReminderBot.reminder_loop CONFIG self w) in Hdisk. fold fired in Hdisk.
  split; [done|]. split; [intros; apply Hmanual|].
  destruct (channels w 0%nat _) as [ch|].
  - assert (reminder_persisted CONFIG fired.1 fired.2) as Hp.
    { unfold reminder_persisted. rewrite Hdisk, Hself. apply lookup_insert_eq. }
    split; [done|]. intros ctx. destruct (Hmanual ctx) as [H1 H2].
    unfold reminder_persisted in *. by rewrite H1, H2.
  - split; [done|]. intros ctx. destruct (Hmanual ctx) as [_ H2]. congruence.
Qed.

(** C10. A firing whose channel does not resolve posts nothing and writes
    nothing, yet counts; so the count written by the next firing that does
    post includes every skipped one. *)
Theorem skipped_reminders_are_counted self (skipped : list world) w ch :
  Forall (λ w0, channels w0 0%nat (REMINDER_CHANNEL_ID CONFIG) = None) skipped →
  channels w 0%nat (REMINDER_CHANNEL_ID CONFIG) = Some ch →
  let before :=
    foldl (λ self0 w0, (ReminderBot.send_reminder CONFIG self0 w0).1)
          self skipped in
  (∀ self0 w0, w0 ∈ skipped →
     outbox (ReminderBot.send_reminder CONFIG self0 w0).2 = outbox w0
     ∧ disk (ReminderBot.send_reminder CONFIG self0 w0).2 = disk w0
     ∧ (ReminderBot.send_reminder CONFIG self0 w0).1
       = ReminderBot.mk (ReminderBot.reminder_count self0 + 1) (stamp w0))
  ∧ ReminderBot.reminder_count before
    = ReminderBot.reminder_count self + Z.of_nat (length skipped)
  ∧ disk (ReminderBot.send_reminder CONFIG before w).2
      !! data_file CONFIG "reminder_state.json"
    = Some (reminder_state_json
              (ReminderBot.reminder_count self + Z.of_nat (length skipped) + 1)
              (stamp w)).
Proof.
  intros Hskipped Hch before.
  assert (ReminderBot.reminder_count before
          = ReminderBot.reminder_count self + Z.of_nat (length skipped)) as Hcount.
  { unfold before. clear Hskipped before. revert self.
    induction skipped as [|w0 ws IH]; intros self; simpl; [lia|].
    rewrite IH, send_reminder_self; simpl. lia. }
  split; [|split; [done|]].
  - intros self0 w0 Hin.
    rewrite Forall_forall in Hskipped.
    destruct (send_reminder_skipped self0 w0 (Hskipped _ Hin)) as [Hd Ho].
    by rewrite Hd, Ho, send_reminder_self.
  - rewrite send_reminder_disk, Hch, Hcount. apply lookup_insert_eq.
Qed.

End reminder.

(** C8 as stated fails: with no channel to resolve, the first firing counts
    one reminder and the state file stays absent. *)
Lemma reminder_not_persisted_when_skipped :
  let w := sample_world (λ _, None) (λ _, Response "") in
  let fired :=
    ReminderBot.send_reminder (H := sample_strftime) sample_config
                              (ReminderBot.mk 0 None) w in
  ReminderBot.reminder_count fired.1 = 1
  ∧ ¬ reminder_persisted sample_config fired.1 fired.2.
Proof. split; [reflexivity|]. intros H. vm_compute in H. discriminate H. Qed.

(** ** Waiting for a reply *)

(** Both workflows hand [wait_for] the same predicate: it holds exactly of
    the replies to the prompt. *)
Lemma manager_check_correlated channel prompt_id m :
  ManagerBot.check channel prompt_id m = true ↔ correlated channel prompt_id m.
Proof.
  unfold ManagerBot.check, correlated, channel_eqb.
  rewrite !andb_true_iff, bool_decide_eq_true, negb_true_iff.
  destruct (reference m) as [ref|].
  - rewrite bool_decide_eq_true. split.
    + intros [[? ?] ?]; eauto.
    + intros (? & ? & ref' & [= <-] & ?); done.
  - split; [intros [_ [=]]|]. intros (_ & _ & ref & [=] & _).
Qed.

Lemma tracker_check_correlated channel prompt_id m :
  JobTracker.check channel prompt_id m = true ↔ correlated channel prompt_id m.
Proof. apply manager_check_correlated. Qed.

Lemma check_not_correlated channel prompt_id m :
  ¬ correlated channel prompt_id m →
  ManagerBot.check channel prompt_id m = false.
Proof.
  intros Hno. destruct (ManagerBot.check channel prompt_id m) eqn:Hc; [|done].
  by apply manager_check_correlated in Hc.
Qed.

(** Messages that are no reply to the prompt leave the wait as it was. *)
Lemma wait_for_unrelated channel prompt_id pre rest :
  unrelated channel prompt_id pre →
  wait_for (ManagerBot.check channel prompt_id) (pre ++ rest)
  = wait_for (ManagerBot.check channel prompt_id) rest.
Proof.
  induction 1 as [|e pre (m & -> & Hno) _ IH]; [done|]; simpl.
  by rewrite check_not_correlated.
Qed.

Lemma collect_unrelated channel prompt_id pre rest jobs w :
  unrelated channel prompt_id pre →
  JobTracker.collect channel prompt_id (pre ++ rest) jobs w
  = JobTracker.collect channel prompt_id rest jobs w.
Proof.
  induction 1 as [|e pre (m & -> & Hno) _ IH]; [done|]; simpl.
  change (JobTracker.check channel prompt_id m)
    with (ManagerBot.check channel prompt_id m).
  by rewrite check_not_correlated.
Qed.

(** The loop of the job tracker is [wait_for] in a loop. *)
Lemma collect_wait_for channel prompt_id events jobs w :
  JobTracker.collect channel prompt_id events jobs w
  = match wait_for (JobTracker.check channel prompt_id) events with
    | Reply response later =>
        if JobTracker.terminal (content response)
        then (jobs, w, Returned)
        else JobTracker.collect channel prompt_id later
               (jobs ++ [content response])
               (add_reaction response white_check_mark w)
    | TimeoutError _ =>
        (jobs, (send channel (Text JobTracker.timeout_notice) w).2, Returned)
    | Waiting => (jobs, w, Suspended)
    end.
Proof.
  induction events as [|[m|] events IH]; simpl; [done| |done].
  by destruct (JobTracker.check channel prompt_id m).
Qed.

(** A run of replies that are not keywords: each is appended and
    acknowledged, and the loop goes on. *)
Lemma collect_replies channel prompt_id replies rest jobs w :
  Forall (λ r, correlated channel prompt_id r
               ∧ JobTracker.terminal (content r) = false) replies →
  JobTracker.collect channel prompt_id ((on_message <$> replies) ++ rest) jobs w
  = JobTracker.collect channel prompt_id rest
      (jobs ++ (content <$> replies))
      (foldl (λ w r, add_reaction r white_check_mark w) w replies).
Proof.
  intros Hall. revert jobs w.
  induction Hall as [|r replies [Hc Ht] _ IH]; intros jobs w; simpl.
  - by rewrite app_nil_r.
  - apply tracker_check_correlated in Hc. rewrite Hc, Ht, IH.
    by rewrite <- app_assoc.
Qed.

(** A message that fails the predicate changes nothing of what a wait
    returns, wherever it stands among the events. *)
Lemma wait_for_ignores {A} check pre m post (f : message → A) (g h : A) :
  check m = false →
  match wait_for check (pre ++ on_message m :: post) with
  | Reply r _ => f r | TimeoutError _ => g | Waiting => h
  end
  = match wait_for check (pre ++ post) with
    | Reply r _ => f r | TimeoutError _ => g | Waiting => h
    end.
Proof.
  intros Hm. induction pre as [|[m'|] pre IH]; simpl.
  - by rewrite Hm.
  - by destruct (check m').
  - done.
Qed.

Lemma collect_ignores channel prompt_id pre m post jobs w :
  JobTracker.check channel prompt_id m = false →
  JobTracker.collect channel prompt_id (pre ++ on_message m :: post) jobs w
  = JobTracker.collect channel prompt_id (pre ++ post) jobs w.
Proof.
  intros Hm. revert jobs w.
  induction pre as [|[m'|] pre IH]; intros jobs w; simpl.
  - by rewrite Hm.
  - destruct (JobTracker.check channel prompt_id m'); [|done].
    by destruct (JobTracker.terminal (content m')).
  - done.
Qed.

(** ** The status check *)

Section status_check.
Context (CONFIG : config) `{!Strftime}.

(** C3. With the prompt posted: when a reply to it arrives before the timer
    elapses, the check returns with exactly one conversation appended (the
    time of the check, the author, the status text, the response text) and
    the state on disk; when the timer elapses first, it returns with no
    conversation appended, the disk untouched and the timeout notice
    posted after the prompt. *)
Theorem status_check_single_exchange self w ch pre response later :
  channels w 0%nat (STATUS_CHANNEL_ID CONFIG) = Some ch →
  unrelated ch (next_message_id w) pre →
  correlated ch (next_message_id w) response →
  let replied :=
    ManagerBot.check_status CONFIG (pre ++ on_message response :: later) self w in
  let timed_out :=
    ManagerBot.check_status CONFIG (pre ++ timer_elapsed :: later) self w in
  let text :=
    match genai w (ManagerBot.prompt (content response)) with
    | Response text => text
    | Raised _ => ManagerBot.fallback
    end in
  (replied.2 = Returned
   ∧ ManagerBot.conversations replied.1.1
     = ManagerBot.conversations self
       ++ [mk_conversation
             (Some (strftime "%Y-%m-%d %H:%M:%S" (clock w 0%nat)))
             (author_str (msg_author response)) (content response) text]
   ∧ disk replied.1.2 !! data_file CONFIG "manager_state.json"
     = Some (manager_state_json (ManagerBot.conversations replied.1.1)
                                (ManagerBot.last_check_time replied.1.1)))
  ∧ (timed_out.2 = Returned
     ∧ ManagerBot.conversations timed_out.1.1 = ManagerBot.conversations self
     ∧ disk timed_out.1.2 = disk w
     ∧ ∃ e, outbox timed_out.1.2
            = outbox w ++ [Posted ch (next_message_id w) (Embed e);
                           Posted ch (next_message_id w + 1)
                                  (Text ManagerBot.timeout_notice)]).
Proof.
  intros Hch Hpre Hreply replied timed_out text.
  apply manager_check_correlated in Hreply.
  split.
  - unfold replied, text, ManagerBot.check_status, get_channel, datetime_now.
    simpl. rewrite Hch. simpl.
    rewrite (wait_for_unrelated _ _ _ _ Hpre). simpl. rewrite Hreply.
    unfold ManagerBot.get_gemini_response. simpl.
    destruct (genai w _); simpl; (split; [done|split; [done|]]);
      apply lookup_insert_eq.
  - unfold timed_out, ManagerBot.check_status, get_channel, datetime_now.
    simpl. rewrite Hch. simpl.
    rewrite (wait_for_unrelated _ _ _ _ Hpre). simpl.
    repeat split; try done. eexists. by rewrite <- app_assoc.
Qed.

End status_check.

(** ** The job tracker *)

Lemma terminal_keyword text :
  JobTracker.terminal text = true ↔ lower text ∈ JobTracker.keywords.
Proof. unfold JobTracker.terminal. apply bool_decide_eq_true. Qed.

Lemma not_terminal text :
  lower text ∉ JobTracker.keywords → JobTracker.terminal text = false.
Proof. unfold JobTracker.terminal. apply bool_decide_eq_false. Qed.

(** The world after acknowledging a run of replies. *)
Lemma reactions_world replies w :
  foldl (λ w r, add_reaction r white_check_mark w) w replies
  = mk_world (clock w) (channels w) (entropy w) (genai w) (next_message_id w)
             (tasks w) (disk w)
             (outbox w
              ++ ((λ r, Reacted (msg_id r) white_check_mark) <$> replies))
             (stdout w).
Proof.
  revert w. induction replies as [|r replies IH]; intros w; simpl.
  - rewrite app_nil_r. by destruct w.
  - rewrite IH. simpl. by rewrite <- app_assoc.
Qed.

(** What the collection loop returns on a run of applications followed by an
    event that closes it. *)
Lemma collect_batch channel prompt_id replies stop later jobs w :
  Forall (job_reply channel prompt_id) replies →
  closes channel prompt_id stop →
  ∃ w',
    JobTracker.collect channel prompt_id
      ((on_message <$> replies) ++ stop :: later) jobs w
    = (jobs ++ (content <$> replies), w', Returned)
    ∧ genai w' = genai w ∧ disk w' = disk w
    ∧ ∃ sent, outbox w' = outbox w ++ sent.
Proof.
  intros Hreplies Hstop.
  rewrite collect_replies, reactions_world.
  2:{ eapply Forall_impl; [done|]. intros r [? ?]. split; [done|].
      by apply not_terminal. }
  destruct Hstop as [->|(m & -> & Hc & Hk)]; simpl.
  - eexists; split; [reflexivity|]. simpl. repeat split.
    eexists. by rewrite <- app_assoc.
  - apply tracker_check_correlated in Hc. apply terminal_keyword in Hk.
    rewrite Hc, Hk. eexists; split; [reflexivity|]. simpl. repeat split.
    by eexists.
Qed.


(** Adding the "Job i" fields changes neither title nor description. *)
Lemma job_fields_keep (jobs : list (nat * string)) e :
  let e' :=
    foldl (λ e '(i, job), add_field ("Job " +:+ pretty i) job e) e jobs in
  title e' = title e ∧ description e' = description e.
Proof.
  revert e. induction jobs as [|[i job] jobs IH]; intros e; simpl; [done|].
  destruct (IH (add_field ("Job " +:+ pretty i) job e)) as [-> ->]. done.
Qed.

Section job_tracker.
Context (CONFIG : config) `{!Strftime}.

Let today (w : world) : option string :=
  Some (strftime "%Y-%m-%d" (clock w 0%nat)).

(** A whole run of the tracker: the prompt is posted, the replies are
    collected until an event closes the collection, and the batch is
    processed. *)
Lemma check_applications_batch self w ch replies stop later :
  channels w 0%nat (JOB_CHANNEL_ID CONFIG) = Some ch →
  Forall (job_reply ch (next_message_id w)) replies →
  closes ch (next_message_id w) stop →
  let run :=
    JobTracker.check_applications CONFIG
      ((on_message <$> replies) ++ stop :: later) self w in
  let jobs := content <$> replies in
  run.2 = Returned
  ∧ run.1.1
    = JobTracker.mk
        (JobTracker.applications self
         ++ ((λ job, mk_application job (today w) "Applied" "") <$> jobs))
        (today w)
  ∧ disk run.1.2
    = <[data_file CONFIG "job_applications.json" :=
          job_applications_json (JobTracker.applications run.1.1) (today w)]>
        (disk w)
  ∧ ∃ e sent_id,
      last (outbox run.1.2) = Some (Posted ch sent_id (Embed e))
      ∧ if decide (jobs = [])
        then title e = JobTracker.no_applications_title
        else title e
             = "Application Analysis (" +:+ pretty (length jobs) +:+ " jobs)"
             ∧ description e
               = match genai w (JobTracker.prompt jobs) with
                 | Response text => text
                 | Raised _ => JobTracker.fallback
                 end.
Proof.
  intros Hch Hreplies Hstop run jobs.
  unfold run, JobTracker.check_applications, get_channel, datetime_now.
  simpl. rewrite Hch. simpl.
  match goal with
  | |- context [JobTracker.collect ch ?i ?evs [] ?w0] =>
      destruct (collect_batch ch i replies stop later [] w0 Hreplies Hstop)
        as (w' & -> & Hgenai & Hdisk & sent & Hout)
  end.
  simpl in Hgenai, Hdisk, Hout. simpl. fold jobs.
  destruct jobs as [|job jobs'] eqn:Hjobs; simpl.
  - rewrite app_nil_r, Hdisk.
    repeat split; try done.
    do 2 eexists. split; [apply last_snoc|]. done.
  - unfold JobTracker.get_application_analysis. rewrite Hgenai.
    destruct (genai w _) eqn:Hai; simpl; rewrite Hdisk;
      (repeat split; try done);
      (do 2 eexists; split; [apply last_snoc|]);
      match goal with
      | |- context [foldl ?f ?e0 ?l] =>
          destruct (job_fields_keep l e0) as [Ht Hd]
      end; simpl in *; by rewrite Ht, Hd.
Qed.


End job_tracker.

(** ** Correlation of replies, and the fallback of the responder *)

Section conversations.
Context (CONFIG : config) `{!Strftime}.

(** C6. In the status check and in the job tracker alike, a message that is
    no reply to the prompt (another channel, a bot's, no reference, or a
    reference to another message) is ignored: the run with it, wherever it
    stands among the events, is the run without it.  And the predicate
    [wait_for] filters with holds of the replies to the prompt only. *)
Theorem uncorrelated_messages_are_ignored manager tracker w pre m post :
  (∀ ch prompt_id,
     (ManagerBot.check ch prompt_id m = true ↔ correlated ch prompt_id m)
     ∧ (JobTracker.check ch prompt_id m = true ↔ correlated ch prompt_id m))
  ∧ (∀ ch,
       channels w 0%nat (STATUS_CHANNEL_ID CONFIG) = Some ch →
       ¬ correlated ch (next_message_id w) m →
       ManagerBot.check_status CONFIG (pre ++ on_message m :: post) manager w
       = ManagerBot.check_status CONFIG (pre ++ post) manager w)
  ∧ (∀ ch,
       channels w 0%nat (JOB_CHANNEL_ID CONFIG) = Some ch →
       ¬ correlated ch (next_message_id w) m →
       JobTracker.check_applications CONFIG (pre ++ on_message m :: post)
                                     tracker w
       = JobTracker.check_applications CONFIG (pre ++ post) tracker w).
Proof.
  split; [|split].
  - intros ch prompt_id.
    split; [apply manager_check_correlated|apply tracker_check_correlated].
  - intros ch Hch Hno. apply check_not_correlated in Hno.
    unfold ManagerBot.check_status, get_channel, datetime_now.
    simpl. rewrite Hch. simpl.
    by apply wait_for_ignores.
  - intros ch Hch Hno. apply check_not_correlated in Hno.
    unfold JobTracker.check_applications, get_channel, datetime_now.
    simpl. rewrite Hch. simpl.
    by rewrite collect_ignores.
Qed.

(** C7. When the text generation call raises, both callers return their
    fixed fallback text; the status check still posts its feedback (the
    fallback), records it and returns, and the job tracker still posts its
    analysis (the fallback), records the applications and returns. *)
Theorem ai_failure_falls_back manager tracker w mch jch pre response later
    replies stop :
  (∀ prompt, ∃ error, genai w prompt = Raised error) →
  channels w 0%nat (STATUS_CHANNEL_ID CONFIG) = Some mch →
  channels w 0%nat (JOB_CHANNEL_ID CONFIG) = Some jch →
  unrelated mch (next_message_id w) pre →
  correlated mch (next_message_id w) response →
  replies ≠ [] →
  Forall (job_reply jch (next_message_id w)) replies →
  closes jch (next_message_id w) stop →
  let status :=
    ManagerBot.check_status CONFIG (pre ++ on_message response :: later)
                            manager w in
  let jobs :=
    JobTracker.check_applications CONFIG
      ((on_message <$> replies) ++ stop :: later) tracker w in
  (∀ user_status,
     (ManagerBot.get_gemini_response user_status w).1 = ManagerBot.fallback)
  ∧ (∀ jobs_applied,
       (JobTracker.get_application_analysis jobs_applied w).1
       = JobTracker.fallback)
  ∧ (status.2 = Returned
     ∧ (conv_bot_response <$> last (ManagerBot.conversations status.1.1))
       = Some ManagerBot.fallback
     ∧ ∃ e sent_id,
         last (outbox status.1.2) = Some (Posted mch sent_id (Embed e))
         ∧ description e = ManagerBot.fallback)
  ∧ (jobs.2 = Returned
     ∧ length (JobTracker.applications jobs.1.1)
       = (length (JobTracker.applications tracker) + length replies)%nat
     ∧ ∃ e sent_id,
         last (outbox jobs.1.2) = Some (Posted jch sent_id (Embed e))
         ∧ description e = JobTracker.fallback).
Proof.
  intros Hfail Hmch Hjch Hpre Hresponse Hsome Hreplies Hstop status jobs.
  split; [|split; [|split]].
  - intros user_status. unfold ManagerBot.get_gemini_response.
    by destruct (Hfail (ManagerBot.prompt user_status)) as [error ->].
  - intros jobs_applied. unfold JobTracker.get_application_analysis.
    by destruct (Hfail (JobTracker.prompt jobs_applied)) as [error ->].
  - apply manager_check_correlated in Hresponse.
    unfold status, ManagerBot.check_status, get_channel, datetime_now.
    simpl. rewrite Hmch. simpl.
    rewrite (wait_for_unrelated _ _ _ _ Hpre). simpl. rewrite Hresponse.
    unfold ManagerBot.get_gemini_response. simpl.
    destruct (Hfail (ManagerBot.prompt (content response))) as [error ->].
    simpl. split; [done|]. rewrite !last_snoc. split; [done|]. eauto.
  - destruct (check_applications_batch CONFIG tracker w jch replies stop later
                Hjch Hreplies Hstop)
      as (Hret & Hself & _ & e & sent_id & Hlast & Hembed).
    fold jobs in Hret, Hself, Hlast. split; [done|]. split.
    + rewrite Hself. simpl. by rewrite length_app, !length_fmap.
    + exists e, sent_id. split; [done|].
      destruct (decide (content <$> replies = [])) as [Hnil|_].
      { by destruct replies. }
      destruct Hembed as [_ ->].
      by destruct (Hfail (JobTracker.prompt (content <$> replies))) as [? ->].
Qed.

End conversations.

(** ** The randomized daily schedule *)

Lemma to_us_of_us n : datetime.to_us (datetime.of_us n) = n.
Proof.
  unfold datetime.to_us, datetime.of_us; simpl.
  unfold datetime.us_per_day, datetime.us_per_hour, datetime.us_per_minute,
    datetime.us_per_second.
  Z.div_mod_to_equations. lia.
Qed.

(** The windows of a day, for an interval that divides 24. *)
Lemma py_range_windows k :
  0 < k → (k | 24) →
  py_range 0 24 k = (λ j : nat, Z.of_nat j * k) <$> seq 0 (Z.to_nat (24 `div` k)).
Proof.
  intros Hk [q Hq]. unfold py_range. rewrite decide_True by done.
  replace ((24 - 0 + k - 1) `div` k) with (24 `div` k).
  - apply list_fmap_ext. intros _ j _. lia.
  - rewrite Hq, Z.div_mul by lia.
    apply Z.div_unique with (k - 1); lia.
Qed.

Lemma py_range_length k :
  0 < k → (k | 24) → length (py_range 0 24 k) = Z.to_nat (24 `div` k).
Proof.
  intros Hk Hdiv. by rewrite py_range_windows, length_fmap, length_seq.
Qed.

Lemma py_range_lookup k (j : nat) :
  0 < k → (k | 24) → (j < Z.to_nat (24 `div` k))%nat →
  py_range 0 24 k !! j = Some (Z.of_nat j * k).
Proof.
  intros Hk Hdiv Hj. rewrite py_range_windows, list_lookup_fmap by done.
  by rewrite lookup_seq_lt.
Qed.

Lemma py_range_NoDup k : NoDup (py_range 0 24 k).
Proof.
  unfold py_range. case_decide; [|constructor].
  apply NoDup_fmap_2; [|apply NoDup_seq].
  intros i j Hij. nia.
Qed.


Lemma filter_all {A} (P : A → Prop) `{!∀ x, Decision (P x)} (l : list A) :
  Forall P l → filter P l = l.
Proof.
  induction 1 as [|x l Hx _ IH]; [done|]. by rewrite filter_cons_True, IH.
Qed.

Lemma window_tasks_length k now hours draws :
  length (window_tasks k now hours draws) = length hours.
Proof.
  revert draws. induction hours as [|h hours IH]; intros draws; simpl; [done|].
  by rewrite IH.
Qed.

Lemma window_tasks_windows k now hours draws :
  window <$> window_tasks k now hours draws = Some <$> hours.
Proof.
  revert draws. induction hours as [|h hours IH]; intros draws; simpl; [done|].
  by rewrite IH.
Qed.

Lemma window_tasks_active k now hours draws :
  Forall (λ t, cancelled t = false ∧ is_Some (window t))
         (window_tasks k now hours draws).
Proof.
  revert draws. induction hours as [|h hours IH]; intros draws; simpl;
    constructor; [by split; [|eexists]|apply IH].
Qed.

Lemma window_tasks_lookup k now hours draws (j : nat) h :
  hours !! j = Some h →
  window_tasks k now hours draws !! j = Some (window_task k now h (draws j)).
Proof.
  revert draws j.
  induction hours as [|h0 hours IH]; intros draws [|j] Hj; simplify_eq/=;
    [done|].
  by rewrite (IH (λ n, draws (S n)) j).
Qed.

Lemma window_tasks_take k now hours draws n :
  take n (window_tasks k now hours draws)
  = window_tasks k now (take n hours) draws.
Proof.
  revert draws n. induction hours as [|h hours IH]; intros draws [|n]; simpl;
    [done..|]. by rewrite IH.
Qed.



(** Cancelling changes the [cancelled] flag of the tasks named, and nothing
    else of the world the scheduler reads. *)
Lemma cancel_all_lookup handles w handle :
  tasks (ManagerBot.cancel_all handles w) !! handle
  = (if bool_decide (handle ∈ handles) then task_cancel else id)
      <$> tasks w !! handle.
Proof.
  revert w. induction handles as [|h handles IH]; intros w; simpl.
  { by destruct (tasks w !! handle). }
  rewrite IH. unfold cancel; simpl.
  destruct (decide (h = handle)) as [->|Hne].
  - rewrite list_lookup_alter_eq.
    rewrite (bool_decide_eq_true_2 (handle ∈ handle :: handles)) by left.
    destruct (tasks w !! handle); simpl; [|done]. by case_bool_decide.
  - rewrite list_lookup_alter_ne by done.
    destruct (tasks w !! handle); simpl; [|done].
    rewrite (bool_decide_ext (handle ∈ h :: handles) (handle ∈ handles));
      [done|]. rewrite elem_of_cons.
    split; [intros [Heq|Hin]; [by subst|done]|by right].
Qed.

Lemma cancel_all_frame handles w :
  clock (ManagerBot.cancel_all handles w) = clock w
  ∧ entropy (ManagerBot.cancel_all handles w) = entropy w
  ∧ length (tasks (ManagerBot.cancel_all handles w)) = length (tasks w).
Proof.
  revert w. induction handles as [|h handles IH]; intros w; simpl; [done|].
  destruct (IH (cancel h w)) as (-> & -> & ->). unfold cancel; simpl.
  by rewrite length_alter.
Qed.



Section scheduler.
Context (CONFIG : config) `{!Strftime}.

Let k : Z := REMINDER_INTERVAL_HOURS CONFIG.

(** One turn of the arming loop: one draw consumed, one task created and
    registered under its window. *)
Lemma arm_turn now self w i :
  let r := ManagerBot.arm CONFIG now (self, w) i in
  tasks r.2 = tasks w ++ [window_task k now i (entropy w 0%nat)]
  ∧ entropy r.2 = (λ n, entropy w (S n))
  ∧ clock r.2 = clock w
  ∧ ManagerBot.status_checks r.1
    = <[i := length (tasks w)]> (ManagerBot.status_checks self).
Proof.
  unfold ManagerBot.arm, randint, create_task; simpl.
  repeat split. do 2 f_equal.
  unfold window_task, planned, not_before, offset_of, datetime.sub,
    datetime.ltb, datetime.add, datetime.minutes, datetime.days.
  fold k. do 2 f_equal.
  replace (k * 60 - 1 - 0 + 1) with (k * 60) by lia.
  rewrite !to_us_of_us.
  replace (datetime.to_us (datetime.replace now i 0 0))
    with (datetime.at_hour_us now i + datetime.microsecond now)
    by (unfold datetime.to_us, datetime.at_hour_us, datetime.midnight_us;
        simpl; lia).
  rewrite Z.add_0_l.
  case_bool_decide; rewrite ?to_us_of_us; lia.
Qed.

(** The arming loop over a list of windows. *)
Lemma arm_loop now hours self w :
  let r := foldl (ManagerBot.arm CONFIG now) (self, w) hours in
  tasks r.2 = tasks w ++ window_tasks k now hours (entropy w)
  ∧ clock r.2 = clock w
  ∧ (∀ i, i ∉ hours →
       ManagerBot.status_checks r.1 !! i = ManagerBot.status_checks self !! i)
  ∧ (NoDup hours → ∀ (j : nat) i, hours !! j = Some i →
       ManagerBot.status_checks r.1 !! i = Some (length (tasks w) + j)%nat).
Proof.
  revert self w. induction hours as [|h hours IH]; intros self w.
  { simpl. rewrite app_nil_r. do 3 (split; [done|]). intros _ j i Hj.
    by rewrite lookup_nil in Hj. }
  cbn [foldl window_tasks].
  destruct (arm_turn now self w h) as (Htasks & Hentropy & Hclock & Hsc).
  destruct (ManagerBot.arm CONFIG now (self, w) h) as [self1 w1].
  simpl in Htasks, Hentropy, Hclock, Hsc.
  destruct (IH self1 w1) as (IHtasks & IHclock & IHout & IHin).
  split; [|split; [|split]].
  - rewrite IHtasks, Htasks, Hentropy, <- app_assoc. done.
  - congruence.
  - intros i Hi. apply not_elem_of_cons in Hi as [Hne Hi].
    rewrite IHout, Hsc by done. by apply lookup_insert_ne.
  - intros Hnodup j i Hj. apply NoDup_cons in Hnodup as [Hh Hnodup].
    destruct j as [|j]; simplify_eq/=.
    + rewrite IHout, Hsc by done. rewrite lookup_insert_eq. f_equal. lia.
    + rewrite (IHin Hnodup j i Hj), Htasks, length_app. simpl. f_equal. lia.
Qed.

Let hours : list Z := py_range 0 24 k.

Let handles (self : ManagerBot.t) : list nat :=
  (map_to_list (ManagerBot.status_checks self)).*2.

(** The state after [n] turns of the arming loop: the old tasks, each
    registered one cancelled, then the tasks of the first [n] windows. *)
Lemma arming_state self w n :
  let r := arming CONFIG self w n in
  tasks r.2
  = tasks (ManagerBot.cancel_all (handles self) w)
    ++ window_tasks k (clock w 0%nat) (take n hours) (entropy w)
  ∧ (∀ i, i ∉ take n hours → ManagerBot.status_checks r.1 !! i = None)
  ∧ (∀ (j : nat) i, take n hours !! j = Some i →
       ManagerBot.status_checks r.1 !! i = Some (length (tasks w) + j)%nat).
Proof.
  unfold arming, datetime_now, feed_next.
  destruct (cancel_all_frame (handles self) w) as (Hclock & Hentropy & Hlen).
  fold (handles self). fold k. fold hours. rewrite Hclock.
  match goal with
  | |- context [foldl (ManagerBot.arm CONFIG ?now) (?s0, ?w0) ?hs] =>
      destruct (arm_loop now hs s0 w0) as (Htasks & _ & Hout & Hin)
  end.
  simpl in Htasks, Hout, Hin. rewrite Hentropy, Hlen in *.
  split; [done|]. split.
  { intros i Hi. by rewrite Hout, lookup_empty. }
  apply Hin. pose proof (sublist_take hours n) as Hsub.
  pose proof (py_range_NoDup k) as Hnodup.
  by eapply sublist_NoDup in Hsub.
Qed.

Lemma schedule_is_arming self w (n : nat) :
  (length hours ≤ n)%nat →
  ManagerBot.schedule_random_checks CONFIG self w = arming CONFIG self w n.
Proof.
  intros Hn. unfold arming, ManagerBot.schedule_random_checks.
  fold k. fold hours. by rewrite take_ge.
Qed.






(** C1.  For an interval that divides 24, one call creates
    24 / intervalHours tasks, one per window start hour
    0, intervalHours, 2 * intervalHours, ..., each registered under its
    hour and armed.  The task of window [h] fires at hour [h] of today plus
    an offset of at least 0 and less than intervalHours * 60 minutes, and a
    day later when that instant is before the current time; so it fires
    inside its window, today's or tomorrow's, and not before the current
    time.  The whole minutes of the offset are those drawn by
    [randint(0, intervalHours * 60 - 1)], which can be every number of the
    range; the rest, under a second, is the microsecond of the current
    time, which [replace(hour=i, minute=0, second=0)] leaves in place. *)
Theorem windows_are_armed self w :
  0 < k → (k | 24) →
  datetime.valid (clock w 0%nat) →
  let now := clock w 0%nat in
  let r := ManagerBot.schedule_random_checks CONFIG self w in
  let windows := Z.to_nat (24 `div` k) in
  length (tasks r.2) = (length (tasks w) + windows)%nat
  ∧ size (ManagerBot.status_checks r.1) = windows
  ∧ (∀ i, is_Some (ManagerBot.status_checks r.1 !! i)
          ↔ ∃ j : nat, (j < windows)%nat ∧ i = Z.of_nat j * k)
  ∧ (∀ minutes, 0 ≤ minutes < k * 60 → offset_of k minutes = minutes)
  ∧ ∀ j : nat, (j < windows)%nat →
      let h := Z.of_nat j * k in
      let drawn := offset_of k (entropy w j) in
      let offset := datetime.minutes drawn + datetime.microsecond now in
      ∃ t,
        ManagerBot.status_checks r.1 !! h = Some (length (tasks w) + j)%nat
        ∧ tasks r.2 !! (length (tasks w) + j)%nat = Some t
        ∧ window t = Some h ∧ cancelled t = false
        ∧ 0 ≤ drawn < k * 60
        ∧ offset `div` datetime.us_per_minute = drawn
        ∧ 0 ≤ offset < datetime.minutes (k * 60)
        ∧ fire_time now t = not_before now (datetime.at_hour_us now h + offset)
        ∧ (∃ day,
             (day = datetime.ordinal now ∨ day = datetime.ordinal now + 1)
             ∧ in_window k h day (fire_time now t))
        ∧ datetime.to_us now ≤ fire_time now t.
Proof.
  intros Hk Hdiv Hvalid now r windows.
  assert (length hours = windows) as Hlen by by apply py_range_length.
  assert (r = arming CONFIG self w windows) as Hr
    by (apply schedule_is_arming; lia).
  destruct (arming_state self w windows) as (Htasks & Hout & Hin).
  destruct (cancel_all_frame (handles self) w) as (_ & _ & Hold).
  rewrite <- Hr, take_ge in * by lia.
  assert (∀ i, is_Some (ManagerBot.status_checks r.1 !! i)
               ↔ ∃ j : nat, (j < windows)%nat ∧ i = Z.of_nat j * k) as Hdom.
  { intros i. split.
    - intros Hsome. destruct (decide (i ∈ hours)) as [Hi|Hi].
      + apply list_elem_of_lookup in Hi as [j Hj]. exists j.
        pose proof (lookup_lt_Some _ _ _ Hj) as Hlt. rewrite Hlen in Hlt.
        split; [done|]. unfold hours in Hj.
        rewrite py_range_lookup in Hj by done. congruence.
      + rewrite Hout in Hsome by done. by destruct Hsome.
    - intros (j & Hj & ->). rewrite (Hin j); [done|].
      by apply py_range_lookup. }
  split; [|split; [|split; [done|split]]].
  - by rewrite Htasks, length_app, window_tasks_length, Hold, Hlen.
  - rewrite <- Hlen, <- size_dom.
    replace (dom (ManagerBot.status_checks r.1)) with (list_to_set (C:=gset Z) hours).
    { apply size_list_to_set, py_range_NoDup. }
    apply set_eq. intros i. rewrite elem_of_list_to_set, elem_of_dom, Hdom.
    unfold hours. rewrite py_range_windows, list_elem_of_fmap by done.
    split.
    + intros (j & -> & Hj). apply elem_of_seq in Hj. exists j. split; [lia|done].
    + intros (j & Hj & ->). exists j. split; [done|]. apply elem_of_seq. lia.
  - intros minutes Hm. unfold offset_of. apply Z.mod_small. lia.
  - intros j Hj h drawn offset.
    assert (hours !! j = Some h) as Hh by by apply py_range_lookup.
    exists (window_task k now h (entropy w j)).
    assert (0 ≤ drawn < k * 60) as Hdrawn
      by (apply Z.mod_pos_bound; lia).
    assert (0 ≤ h) as Hh0 by (unfold h; nia).
    assert (h + k ≤ 24) as Hh1.
    { destruct Hdiv as [q Hq].
      assert (24 `div` k = q) as Hquot
        by (rewrite Hq; by apply Z.div_mul; lia).
      unfold windows in Hj. rewrite Hquot in Hj. unfold h. nia. }
    destruct Hvalid as (Hhour & Hminute & Hsecond & Hmicro). fold now in Hmicro.
    split; [by apply Hin|]. split.
    { rewrite Htasks, lookup_app_r by lia.
      rewrite Hold. replace (length (tasks w) + j - length (tasks w))%nat with j by lia.
      by apply window_tasks_lookup. }
    split; [done|]. split; [done|]. split; [done|].
    split.
    { symmetry. unfold offset, datetime.minutes.
      apply (Z.div_unique_pos _ _ _ (datetime.microsecond now));
        unfold datetime.us_per_minute, datetime.us_per_second in *; lia. }
    split.
    { unfold offset, datetime.minutes, datetime.us_per_minute,
        datetime.us_per_second in *. lia. }
    assert (fire_time now (window_task k now h (entropy w j))
            = not_before now (datetime.at_hour_us now h + offset)) as Hfire.
    { unfold fire_time, window_task, planned, offset, datetime.minutes; simpl.
      fold drawn.
      replace (datetime.at_hour_us now h
               + (drawn * datetime.us_per_minute + datetime.microsecond now))
        with (datetime.at_hour_us now h + datetime.microsecond now
              + drawn * datetime.us_per_minute) by lia.
      lia. }
    split; [exact Hfire|]. rewrite Hfire.
    fold now in Hhour, Hminute, Hsecond.
    unfold offset, datetime.minutes, not_before, in_window,
      datetime.at_hour_us, datetime.midnight_us,
      datetime.to_us, datetime.us_per_day, datetime.us_per_hour,
      datetime.us_per_minute, datetime.us_per_second in *.
    case_bool_decide.
    + split; [|lia].
      exists (datetime.ordinal now + 1). split; [by right|lia].
    + split; [|lia].
      exists (datetime.ordinal now). split; [by left|lia].
Qed.

End scheduler.

(** * The properties on sample inputs *)

(** Settles a decidable statement about concrete values by evaluating it. *)
Ltac evaluate := apply (bool_decide_unpack _); vm_compute; exact I.

(** At 10:30:15.500000 of the Saturday, with every draw 0: eight tasks, and
    the task of the window that starts at 12 fires at 12:00:00.500000. *)
Lemma windows_are_armed_witness :
  let w := sample_world sample_channel (λ _, Response "") in
  let r :=
    ManagerBot.schedule_random_checks (H := sample_strftime) sample_config
                                      (ManagerBot.mk [] None ∅) w in
  (0 < 3 ∧ (3 | 24) ∧ datetime.valid sample_now)
  ∧ length (tasks r.2) = 8%nat
  ∧ size (ManagerBot.status_checks r.1) = 8%nat
  ∧ ∃ t,
      tasks r.2 !! 4%nat = Some t
      ∧ window t = Some 12
      ∧ fire_time sample_now t
        = datetime.to_us (datetime.mk 739017 12 0 0 500000).
Proof.
  assert (0 < 3) as Hk by lia.
  assert ((3 | 24)) as Hdiv by (exists 8; reflexivity).
  assert (datetime.valid sample_now) as Hvalid
    by (unfold datetime.valid; simpl; lia).
  assert (4 < Z.to_nat (24 `div` 3))%nat as Hj by (vm_compute; lia).
  split; [done|].
  destruct (windows_are_armed sample_config (H := sample_strftime)
              (ManagerBot.mk [] None ∅)
              (sample_world sample_channel (λ _, Response ""))
              Hk Hdiv Hvalid) as (Hlen & Hsize & _ & _ & Htask).
  split; [exact Hlen|]. split; [exact Hsize|].
  destruct (Htask 4%nat Hj) as (t & _ & Ht & Hwindow & _ & _ & _ & _ & Hfire & _).
  exists t. split; [exact Ht|]. split; [exact Hwindow|].
  etrans; [exact Hfire|]. vm_compute. reflexivity.
Defined.

Lemma reminder_weekend_field_witness :
  let w := sample_world sample_channel (λ _, Response "") in
  channels w 0%nat 11 = Some (mk_channel 11)
  ∧ datetime.weekday (clock w 0%nat) = 5
  ∧ ∃ e,
      outbox (ReminderBot.send_reminder (H := sample_strftime) sample_config
                (ReminderBot.mk 0 None) w).2
      = [Posted (mk_channel 11) 1000 (Embed e)]
      ∧ ReminderBot.weekend_field.1 ∈ (fields e).*1.
Proof.
  split; [reflexivity|]. split; [reflexivity|].
  destruct (reminder_weekend_field sample_config (H := sample_strftime)
              (ReminderBot.mk 0 None)
              (sample_world sample_channel (λ _, Response ""))
              (mk_channel 11) eq_refl) as (e & Hout & Hfield).
  exists e. split; [exact Hout|]. apply Hfield. left. reflexivity.
Defined.

Lemma skipped_reminders_are_counted_witness :
  let down := sample_world (λ _, None) (λ _, Response "") in
  let up := sample_world sample_channel (λ _, Response "") in
  let before :=
    foldl (λ self0 w0,
             (ReminderBot.send_reminder (H := sample_strftime) sample_config
                                        self0 w0).1)
          (ReminderBot.mk 0 None) [down; down] in
  Forall (λ w0, channels w0 0%nat 11 = None) [down; down]
  ∧ channels up 0%nat 11 = Some (mk_channel 11)
  ∧ disk (ReminderBot.send_reminder (H := sample_strftime) sample_config
            before up).2
      !! data_file sample_config "reminder_state.json"
    = Some (reminder_state_json 3 (Some "%Y-%m-%d %H:%M:%S")).
Proof.
  assert (Forall (λ w0, channels w0 0%nat 11 = None)
            [sample_world (λ _, None) (λ _, Response "");
             sample_world (λ _, None) (λ _, Response "")]) as Hdown
    by (repeat constructor).
  split; [exact Hdown|]. split; [reflexivity|].
  destruct (skipped_reminders_are_counted sample_config (H := sample_strftime)
              (ReminderBot.mk 0 None) _
              (sample_world sample_channel (λ _, Response ""))
              (mk_channel 11) Hdown eq_refl) as (_ & _ & Hdisk).
  exact Hdisk.
Defined.

Lemma status_check_single_exchange_witness :
  let w := sample_world sample_channel (λ _, Response "Well done.") in
  let self := ManagerBot.mk [] None ∅ in
  let reply := sample_reply 22 "Writing tests" in
  let replied :=
    ManagerBot.check_status (H := sample_strftime) sample_config
      [on_message sample_bot_message; on_message reply; timer_elapsed] self w in
  let timed_out :=
    ManagerBot.check_status (H := sample_strftime) sample_config
      [on_message sample_bot_message; timer_elapsed; on_message reply] self w in
  (channels w 0%nat 22 = Some (mk_channel 22)
   ∧ unrelated (mk_channel 22) 1000 [on_message sample_bot_message]
   ∧ correlated (mk_channel 22) 1000 reply)
  ∧ ManagerBot.conversations replied.1.1
    = [mk_conversation (Some "%Y-%m-%d %H:%M:%S") "user#1" "Writing tests"
                       "Well done."]
  ∧ ManagerBot.conversations timed_out.1.1 = []
  ∧ disk timed_out.1.2 = ∅.
Proof.
  assert (unrelated (mk_channel 22) 1000 [on_message sample_bot_message])
    as Hpre.
  { constructor; [|constructor]. eexists. split; [reflexivity|].
    intros (_ & Hbot & _). discriminate Hbot. }
  assert (correlated (mk_channel 22) 1000 (sample_reply 22 "Writing tests"))
    as Hreply by (repeat split; eexists; split; reflexivity).
  split; [split; [reflexivity|split; [exact Hpre|exact Hreply]]|].
  destruct (status_check_single_exchange sample_config (H := sample_strftime)
              (ManagerBot.mk [] None ∅)
              (sample_world sample_channel (λ _, Response "Well done."))
              (mk_channel 22) _ _ [timer_elapsed] eq_refl Hpre Hreply)
    as ((_ & Hone & _) & _).
  destruct (status_check_single_exchange sample_config (H := sample_strftime)
              (ManagerBot.mk [] None ∅)
              (sample_world sample_channel (λ _, Response "Well done."))
              (mk_channel 22) _ _
              [on_message (sample_reply 22 "Writing tests")] eq_refl Hpre
              Hreply)
    as (_ & _ & Hnone & Hdisk & _).
  split; [exact Hone|]. split; [exact Hnone|exact Hdisk].
Defined.


Lemma ai_failure_falls_back_witness :
  let w := sample_world sample_channel (λ _, Raised "quota exceeded") in
  let reply := sample_reply 22 "Writing tests" in
  let job := sample_reply 33 "A" in
  let status :=
    ManagerBot.check_status (H := sample_strftime) sample_config
      [on_message reply] (ManagerBot.mk [] None ∅) w in
  let jobs :=
    JobTracker.check_applications (H := sample_strftime) sample_config
      [on_message job; timer_elapsed] (JobTracker.mk [] None) w in
  (∀ prompt, ∃ error, genai w prompt = Raised error)
  ∧ status.2 = Returned
  ∧ ManagerBot.conversations status.1.1
    = [mk_conversation (Some "%Y-%m-%d %H:%M:%S") "user#1" "Writing tests"
                       ManagerBot.fallback]
  ∧ jobs.2 = Returned
  ∧ ∃ e sent_id,
      last (outbox jobs.1.2) = Some (Posted (mk_channel 33) sent_id (Embed e))
      ∧ description e = JobTracker.fallback.
Proof.
  assert (∀ prompt, ∃ error,
            genai (sample_world sample_channel (λ _, Raised "quota exceeded"))
                  prompt = Raised error) as Hfail by (intros; by eexists).
  assert (∀ cid text, cid ≠ 0 →
            correlated (mk_channel cid) 1000 (sample_reply cid text))
    as Hreply by (intros; repeat split; eexists; split; reflexivity).
  split; [exact Hfail|].
  destruct (ai_failure_falls_back sample_config (H := sample_strftime)
              (ManagerBot.mk [] None ∅) (JobTracker.mk [] None)
              (sample_world sample_channel (λ _, Raised "quota exceeded"))
              (mk_channel 22) (mk_channel 33) [] (sample_reply 22 "Writing tests")
              [] [sample_reply 33 "A"] timer_elapsed
              Hfail eq_refl eq_refl ltac:(constructor)
              (Hreply 22 _ ltac:(lia)) ltac:(discriminate)
              ltac:(constructor; [split; [apply Hreply; lia|evaluate]|constructor])
              ltac:(by left))
    as (_ & _ & (Hret & _ & _) & (Hjobs & _ & Hposted)).
  split; [exact Hret|]. split; [reflexivity|].
  split; [exact Hjobs|exact Hposted].
Defined.

(** * Further properties of the code *)

(** ** Saving and loading state *)

Lemma append_inj_r (prefix a b : string) :
  prefix +:+ a = prefix +:+ b → a = b.
Proof. induction prefix as [|c prefix IH]; simpl; [done|]. by intros [= ?%IH]. Qed.

Lemma data_file_inj CONFIG (a b : string) :
  data_file CONFIG a = data_file CONFIG b → a = b.
Proof.
  unfold data_file. intros Heq. by do 2 apply append_inj_r in Heq.
Qed.

Section persistence.
Context (CONFIG : config) `{!Strftime}.

(** X1. What [save_state] wrote, [load_state] reads back, whatever the
    object held before: the reminder's two fields, the tracker's two fields,
    and the manager's conversations and time (its [status_checks] is not
    stored and stays the object's).  With no state file, [load_state] leaves
    the fields as they are, which at start are the constructor's. *)
Theorem saved_state_is_loaded_back :
  (∀ self before w,
     (ReminderBot.load_state CONFIG before
        (ReminderBot.save_state CONFIG self w)).1 = self)
  ∧ (∀ self before w,
       (ManagerBot.load_state CONFIG before
          (ManagerBot.save_state CONFIG self w)).1
       = ManagerBot.mk (ManagerBot.conversations self)
                       (ManagerBot.last_check_time self)
                       (ManagerBot.status_checks before))
  ∧ (∀ self before w,
       (JobTracker.load_state CONFIG before
          (JobTracker.save_state CONFIG self w)).1 = self)
  ∧ (∀ self w,
       disk w !! data_file CONFIG "reminder_state.json" = None →
       (ReminderBot.load_state CONFIG self w).1 = self)
  ∧ (∀ self w,
       disk w !! data_file CONFIG "manager_state.json" = None →
       (ManagerBot.load_state CONFIG self w).1 = self)
  ∧ (∀ self w,
       disk w !! data_file CONFIG "job_applications.json" = None →
       (JobTracker.load_state CONFIG self w).1 = self).
Proof.
  split; [|split; [|split; [|split; [|split]]]].
  - intros [count time] before w.
    unfold ReminderBot.load_state, ReminderBot.save_state, json_dump; simpl.
    by rewrite lookup_insert_eq.
  - intros self before w.
    unfold ManagerBot.load_state, ManagerBot.save_state, json_dump; simpl.
    by rewrite lookup_insert_eq.
  - intros [apps day] before w.
    unfold JobTracker.load_state, JobTracker.save_state, json_dump; simpl.
    by rewrite lookup_insert_eq.
  - intros self w Hnone. unfold ReminderBot.load_state. by rewrite Hnone.
  - intros self w Hnone. unfold ManagerBot.load_state. by rewrite Hnone.
  - intros self w Hnone. unfold JobTracker.load_state. by rewrite Hnone.
Qed.

(** X2. The three state files are three different paths: saving the state
    of one workflow changes nothing of what the other two load. *)
Theorem saving_leaves_the_other_files reminder manager tracker w :
  let after_reminder := ReminderBot.save_state CONFIG reminder w in
  let after_manager := ManagerBot.save_state CONFIG manager w in
  let after_tracker := JobTracker.save_state CONFIG tracker w in
  (∀ self, (ManagerBot.load_state CONFIG self after_reminder).1
           = (ManagerBot.load_state CONFIG self w).1
           ∧ (ManagerBot.load_state CONFIG self after_tracker).1
             = (ManagerBot.load_state CONFIG self w).1)
  ∧ (∀ self, (ReminderBot.load_state CONFIG self after_manager).1
             = (ReminderBot.load_state CONFIG self w).1
             ∧ (ReminderBot.load_state CONFIG self after_tracker).1
               = (ReminderBot.load_state CONFIG self w).1)
  ∧ (∀ self, (JobTracker.load_state CONFIG self after_reminder).1
             = (JobTracker.load_state CONFIG self w).1
             ∧ (JobTracker.load_state CONFIG self after_manager).1
               = (JobTracker.load_state CONFIG self w).1).
Proof.
  intros after_reminder after_manager after_tracker.
  assert (∀ a b doc, a ≠ b →
            <[data_file CONFIG a := doc]> (disk w) !! data_file CONFIG b
            = disk w !! data_file CONFIG b) as Hother.
  { intros a b doc Hne. apply lookup_insert_ne.
    intros Heq. by apply data_file_inj in Heq. }
  unfold after_reminder, after_manager, after_tracker,
    ReminderBot.save_state, ManagerBot.save_state, JobTracker.save_state,
    ReminderBot.load_state, ManagerBot.load_state, JobTracker.load_state,
    json_dump; simpl.
  repeat split; rewrite Hother by done; by destruct (disk w !! _).
Qed.

(** X3. A restart (a fresh object, then [load_state]) after a firing of the
    reminder comes back with that firing's state when the reminder was
    posted, and with whatever the disk held before when the firing was
    skipped: the reminders counted while the channel was missing are
    forgotten. *)
Theorem restart_after_a_firing self before w :
  let fired := ReminderBot.send_reminder CONFIG self w in
  (ReminderBot.load_state CONFIG before fired.2).1
  = match channels w 0%nat (REMINDER_CHANNEL_ID CONFIG) with
    | Some _ => fired.1
    | None => (ReminderBot.load_state CONFIG before w).1
    end.
Proof.
  intros fired. unfold ReminderBot.load_state.
  unfold fired. rewrite send_reminder_disk, send_reminder_self.
  destruct (channels w 0%nat _); [by rewrite lookup_insert_eq|].
  by destruct (disk w !! _).
Qed.

End persistence.

(** ** The actions when the channel is missing, and the commands *)

Section skipping.
Context (CONFIG : config) `{!Strftime}.

(** X4. With its channel missing, the status check and the job tracker
    return at once, whatever events there are: nothing is posted, nothing
    is written, no conversation or application is added; only the time (or
    the date) of the check is recorded in memory. *)
Theorem actions_skip_without_channel manager tracker w events :
  (channels w 0%nat (STATUS_CHANNEL_ID CONFIG) = None →
   let r := ManagerBot.check_status CONFIG events manager w in
   r.2 = Returned ∧ outbox r.1.2 = outbox w ∧ disk r.1.2 = disk w
   ∧ r.1.1 = ManagerBot.mk (ManagerBot.conversations manager)
               (Some (strftime "%Y-%m-%d %H:%M:%S" (clock w 0%nat)))
               (ManagerBot.status_checks manager))
  ∧ (channels w 0%nat (JOB_CHANNEL_ID CONFIG) = None →
     let r := JobTracker.check_applications CONFIG events tracker w in
     r.2 = Returned ∧ outbox r.1.2 = outbox w ∧ disk r.1.2 = disk w
     ∧ r.1.1 = JobTracker.mk (JobTracker.applications tracker)
                 (Some (strftime "%Y-%m-%d" (clock w 0%nat)))).
Proof.
  split; intros Hnone.
  - unfold ManagerBot.check_status, get_channel, datetime_now; simpl.
    by rewrite Hnone.
  - unfold JobTracker.check_applications, get_channel, datetime_now; simpl.
    by rewrite Hnone.
Qed.

(** X5. [!remind] confirms "Manual reminder sent!" in the channel of the
    command as the last thing it posts, whether the reminder was posted or
    skipped: with the reminder channel missing, the confirmation is all
    that is posted. *)
Theorem remind_command_always_confirms ctx self w :
  let r := remind_command CONFIG ctx self w in
  last (outbox r.2)
  = Some (Posted ctx
            (match channels w 0%nat (REMINDER_CHANNEL_ID CONFIG) with
             | Some _ => next_message_id w + 1
             | None => next_message_id w
             end)
            (Text "Manual reminder sent!"))
  ∧ (channels w 0%nat (REMINDER_CHANNEL_ID CONFIG) = None →
     outbox r.2
     = outbox w ++ [Posted ctx (next_message_id w)
                           (Text "Manual reminder sent!")]).
Proof.
  unfold remind_command, ReminderBot.send_reminder, get_channel,
    ReminderBot.get_time_of_day, datetime_now; simpl.
  destruct (channels w 0%nat _) as [ch|]; simpl.
  - split; [apply last_snoc|done].
  - split; [apply last_snoc|done].
Qed.

(** X6. [!status] and [!jobs] confirm only once the action has returned.
    With the action's channel missing, the confirmation "... initiated!" is
    the only message posted.  With the prompt posted and no reply yet, the
    command is still suspended and has not confirmed; when the timer
    elapses, the status command posts the timeout notice and then the
    confirmation, in this order. *)
Theorem commands_confirm_after_the_action ctx manager tracker w pre later :
  let status events := status_command CONFIG ctx events manager w in
  let jobs events := jobs_command CONFIG ctx events tracker w in
  (channels w 0%nat (STATUS_CHANNEL_ID CONFIG) = None →
   (status pre).2 = Returned
   ∧ outbox (status pre).1.2
     = outbox w ++ [Posted ctx (next_message_id w)
                           (Text "Manual status check initiated!")])
  ∧ (channels w 0%nat (JOB_CHANNEL_ID CONFIG) = None →
     (jobs pre).2 = Returned
     ∧ outbox (jobs pre).1.2
       = outbox w ++ [Posted ctx (next_message_id w)
                             (Text "Manual job application tracker initiated!")])
  ∧ (∀ ch,
       channels w 0%nat (STATUS_CHANNEL_ID CONFIG) = Some ch →
       unrelated ch (next_message_id w) pre →
       ∃ e,
         ((status pre).2 = Suspended
          ∧ outbox (status pre).1.2
            = outbox w ++ [Posted ch (next_message_id w) (Embed e)])
         ∧ (status (pre ++ timer_elapsed :: later)).2 = Returned
         ∧ outbox (status (pre ++ timer_elapsed :: later)).1.2
           = outbox w
             ++ [Posted ch (next_message_id w) (Embed e);
                 Posted ch (next_message_id w + 1)
                        (Text ManagerBot.timeout_notice);
                 Posted ctx (next_message_id w + 2)
                        (Text "Manual status check initiated!")])
  ∧ (∀ ch,
       channels w 0%nat (JOB_CHANNEL_ID CONFIG) = Some ch →
       unrelated ch (next_message_id w) pre →
       ∃ e,
         (jobs pre).2 = Suspended
         ∧ outbox (jobs pre).1.2
           = outbox w ++ [Posted ch (next_message_id w) (Embed e)]).
Proof.
  intros status jobs. split; [|split; [|split]].
  - intros Hnone. unfold status, status_command, ManagerBot.check_status,
      get_channel, datetime_now; simpl. by rewrite Hnone.
  - intros Hnone. unfold jobs, jobs_command, JobTracker.check_applications,
      get_channel, datetime_now; simpl. by rewrite Hnone.
  - intros ch Hch Hpre. eexists.
    unfold status, status_command, ManagerBot.check_status, get_channel,
      datetime_now; simpl. rewrite Hch; simpl.
    rewrite (wait_for_unrelated _ _ _ _ Hpre); simpl.
    rewrite <- (app_nil_r pre) at 1 2.
    rewrite (wait_for_unrelated _ _ _ _ Hpre); simpl.
    split; [done|]. split; [done|].
    rewrite <- !app_assoc. simpl.
    by replace (next_message_id w + 1 + 1) with (next_message_id w + 2) by lia.
  - intros ch Hch Hpre. eexists.
    unfold jobs, jobs_command, JobTracker.check_applications, get_channel,
      datetime_now; simpl. rewrite Hch; simpl.
    rewrite <- (app_nil_r pre) at 1 2.
    rewrite (collect_unrelated _ _ _ _ _ _ Hpre); simpl. done.
Qed.

End skipping.

(** ** Start-up *)

Section startup.
Context (CONFIG : config) `{!Strftime}.

(** The lines printed differ in their fifth character. *)
Ltac other_line :=
  match goal with
  | Hin : _ ∈ _ |- _ =>
      repeat (apply elem_of_cons in Hin as [Hin|Hin]);
      [apply (f_equal (String.get 4)) in Hin;
       unfold missing_line, nl in Hin;
       cbv -[pretty REMINDER_CHANNEL_ID STATUS_CHANNEL_ID JOB_CHANNEL_ID]
         in Hin;
       discriminate Hin ..
      |by apply elem_of_nil in Hin]
  end.

(** X7. [check_channels] answers True exactly when the three channels
    resolve, each in its own lookup; the line of a channel is printed
    exactly when that channel is missing; nothing is posted, written or
    scheduled. *)
Theorem check_channels_reports w :
  let r := check_channels CONFIG w in
  let reminder := channels w 0%nat (REMINDER_CHANNEL_ID CONFIG) in
  let status := channels w 1%nat (STATUS_CHANNEL_ID CONFIG) in
  let job := channels w 2%nat (JOB_CHANNEL_ID CONFIG) in
  (r.1 = true ↔ is_Some reminder ∧ is_Some status ∧ is_Some job)
  ∧ (outbox r.2 = outbox w ∧ disk r.2 = disk w ∧ tasks r.2 = tasks w)
  ∧ ∃ printed,
      stdout r.2 = stdout w ++ printed
      ∧ (missing_line ("REMINDER_CHANNEL_ID", REMINDER_CHANNEL_ID CONFIG)
           ∈ printed ↔ reminder = None)
      ∧ (missing_line ("STATUS_CHANNEL_ID", STATUS_CHANNEL_ID CONFIG)
           ∈ printed ↔ status = None)
      ∧ (missing_line ("JOB_CHANNEL_ID", JOB_CHANNEL_ID CONFIG)
           ∈ printed ↔ job = None).
Proof.
  intros r reminder status job.
  unfold r, check_channels, get_channel; simpl.
  fold reminder. fold status. fold job.
  destruct reminder, status, job; simpl;
    (split; [split; [by eauto
                    |intros (H1 & H2 & H3);
                     first [done
                           |by apply is_Some_None in H1
                           |by apply is_Some_None in H2
                           |by apply is_Some_None in H3]]|]);
    (split; [done|]); rewrite <- ?app_assoc; eexists; (split; [done|]);
    repeat split; try done; intros Hin; try other_line;
    unfold missing_line; simpl;
    repeat first [apply list_elem_of_here | apply list_elem_of_further].
Qed.

End startup.

(** ** The timers *)

Lemma replace_to_us now h :
  datetime.to_us (datetime.replace now h 0 0)
  = datetime.at_hour_us now h + datetime.microsecond now.
Proof.
  unfold datetime.to_us, datetime.at_hour_us, datetime.midnight_us; simpl. lia.
Qed.

(** A valid datetime lies within its own day. *)
Lemma valid_within_day now :
  datetime.valid now →
  datetime.midnight_us now ≤ datetime.to_us now
  < datetime.midnight_us now + datetime.us_per_day.
Proof.
  unfold datetime.valid, datetime.to_us, datetime.midnight_us,
    datetime.us_per_day, datetime.us_per_hour, datetime.us_per_minute,
    datetime.us_per_second.
  lia.
Qed.

Lemma valid_ordinal now :
  datetime.valid now →
  datetime.ordinal now = datetime.to_us now `div` datetime.us_per_day.
Proof.
  intros Hvalid. apply valid_within_day in Hvalid.
  unfold datetime.midnight_us in Hvalid.
  apply (Z.div_unique_pos _ _ _ (datetime.to_us now
                                 - datetime.ordinal now * datetime.us_per_day));
    lia.
Qed.

Lemma valid_microsecond now :
  datetime.valid now →
  datetime.microsecond now
  = datetime.to_us now `mod` datetime.us_per_second.
Proof.
  intros (Hh & Hm & Hs & Hus).
  unfold datetime.to_us, datetime.us_per_day, datetime.us_per_hour,
    datetime.us_per_minute, datetime.us_per_second.
  apply (Z.mod_unique_pos _ _
           (datetime.ordinal now * 86400 + datetime.hour now * 3600
            + datetime.minute now * 60 + datetime.second now)); lia.
Qed.

Section timers.
Context (CONFIG : config) `{!Strftime}.

(** What [schedule_daily_check] leaves: the task created, and the tasks of
    before with the old [job_task] cancelled. *)
Lemma schedule_daily_check_state job_task w :
  let now := clock w 0%nat in
  let r := JobTracker.schedule_daily_check job_task w in
  let before :=
    match job_task with
    | Some task => alter task_cancel task (tasks w)
    | None => tasks w
    end in
  r.1 = Some (length (tasks w))
  ∧ tasks r.2
    = before
      ++ [mk_task (Schedule_job_check
                     (not_before now (datetime.at_hour_us now 20
                                      + datetime.microsecond now)
                      - datetime.to_us now)) false].
Proof.
  unfold JobTracker.schedule_daily_check, datetime_now, create_task, not_before,
    datetime.ltb, datetime.sub, datetime.add, datetime.days.
  destruct job_task as [task|]; simpl; rewrite ?length_alter;
    (split; [done|]); do 4 f_equal;
    rewrite !replace_to_us; case_bool_decide;
    rewrite ?to_us_of_us, ?replace_to_us; lia.
Qed.

(** X8. [schedule_daily_check] cancels the task it had and arms one new
    task, leaving every other task as it was.  The new task fires within
    the next 24 hours, at 20:00:00 of today with the microsecond of the
    current time kept, or at that time of tomorrow when today's is past. *)
Theorem daily_check_is_armed job_task w :
  let now := clock w 0%nat in
  let r := JobTracker.schedule_daily_check job_task w in
  let target := datetime.at_hour_us now 20 + datetime.microsecond now in
  datetime.valid now →
  r.1 = Some (length (tasks w))
  ∧ (∃ t,
       daily_task r = Some t
       ∧ cancelled t = false
       ∧ 0 ≤ seconds_delay t < datetime.us_per_day
       ∧ fire_time now t
         = if bool_decide (target < datetime.to_us now)
           then target + datetime.us_per_day else target)
  ∧ (∀ old t0,
       job_task = Some old → tasks w !! old = Some t0 →
       tasks r.2 !! old = Some (task_cancel t0))
  ∧ (∀ handle,
       job_task ≠ Some handle → (handle < length (tasks w))%nat →
       tasks r.2 !! handle = tasks w !! handle).
Proof.
  intros now r target Hvalid.
  destruct (schedule_daily_check_state job_task w) as (Hhandle & Htasks).
  fold now in Htasks. fold r in Hhandle, Htasks. fold target in Htasks.
  split; [done|]. split; [|split].
  - eexists. unfold daily_task. rewrite Hhandle. cbn [mbind option_bind].
    rewrite Htasks.
    split.
    { rewrite lookup_app_r; destruct job_task; rewrite ?length_alter;
        try lia; by rewrite Nat.sub_diag. }
    split; [done|]. unfold fire_time, not_before; simpl.
    assert (datetime.midnight_us now ≤ target
            < datetime.midnight_us now + datetime.us_per_day) as Htarget.
    { unfold target, datetime.at_hour_us.
      destruct Hvalid as (_ & _ & _ & Hus). revert Hus.
      unfold datetime.us_per_day, datetime.us_per_hour,
        datetime.us_per_minute, datetime.us_per_second. lia. }
    apply valid_within_day in Hvalid. destruct Hvalid as [Hlo Hhi].
    case_bool_decide; lia.
  - intros old t0 -> Hold. rewrite Htasks, lookup_app_l.
    + by rewrite list_lookup_alter_eq, Hold.
    + rewrite length_alter. by eapply lookup_lt_Some.
  - intros handle Hne Hlt. rewrite Htasks.
    destruct job_task as [task|].
    + rewrite lookup_app_l by by rewrite length_alter.
      apply list_lookup_alter_ne. congruence.
    + by rewrite lookup_app_l.
Qed.

Lemma daily_task_created job_task w t :
  let now := clock w 0%nat in
  daily_task (JobTracker.schedule_daily_check job_task w) = Some t →
  t = mk_task (Schedule_job_check
                 (not_before now (datetime.at_hour_us now 20
                                  + datetime.microsecond now)
                  - datetime.to_us now)) false.
Proof.
  intros now. unfold daily_task.
  destruct (schedule_daily_check_state job_task w) as (-> & ->).
  cbn [mbind option_bind].
  rewrite lookup_app_r; destruct job_task; rewrite ?length_alter; try lia;
    rewrite Nat.sub_diag; simpl; by intros [= <-].
Qed.

Ltac numerals :=
  unfold datetime.at_hour_us, datetime.midnight_us, datetime.us_per_day,
    datetime.us_per_hour, datetime.us_per_minute, datetime.us_per_second in *.

(** X9. The tracker's task sleeps a whole day after its check and only then
    re-arms.  The re-arming reads the clock a day, and the duration of the
    check, after the first firing: unless the check took under a second
    (counted with the microsecond of the scheduling), 20:00 of that day is
    past, and the next check is planned for the day after it, two days
    after the first. *)
Theorem job_check_skips_a_day job_task w job_task' w' took t :
  let now := clock w 0%nat in
  let now' := clock w' 0%nat in
  let first := JobTracker.schedule_daily_check job_task w in
  let second := JobTracker.schedule_daily_check job_task' w' in
  datetime.valid now → datetime.valid now' →
  0 ≤ took → datetime.microsecond now + took < 4 * datetime.us_per_hour →
  daily_task first = Some t →
  datetime.to_us now'
  = datetime.to_us now
    + elapsed (JobTracker.schedule_job_check (seconds_delay t)) took →
  ∃ t',
    daily_task second = Some t'
    ∧ fire_time now' t' `div` datetime.us_per_day
      = fire_time now t `div` datetime.us_per_day
        + (if bool_decide (datetime.us_per_second
                           ≤ datetime.microsecond now + took)
           then 2 else 1).
Proof.
  intros now now' first second Hvalid Hvalid' Htook Hshort Ht Hclock.
  apply daily_task_created in Ht. fold now in Ht.
  destruct (schedule_daily_check_state job_task' w') as (Hhandle & Htasks).
  fold now' in Htasks. fold second in Hhandle, Htasks.
  eexists. split.
  { unfold daily_task. rewrite Hhandle. cbn [mbind option_bind].
    rewrite Htasks, lookup_app_r; destruct job_task'; rewrite ?length_alter;
      try lia; by rewrite Nat.sub_diag. }
  pose proof (valid_ordinal _ Hvalid') as Hday'.
  pose proof (valid_microsecond _ Hvalid') as Hus'.
  pose proof (valid_within_day _ Hvalid) as Hnow.
  destruct Hvalid as (_ & _ & _ & Hus).
  subst t. unfold fire_time, not_before in *. simpl in *.
  unfold elapsed, JobTracker.schedule_job_check in Hclock. simpl in Hclock.
  unfold datetime.at_hour_us, datetime.midnight_us in *.
  rewrite Hday', Hus'. clear Hday' Hus' Hvalid' Hhandle Htasks.
  generalize dependent (datetime.to_us now').
  generalize dependent (datetime.to_us now).
  generalize dependent (datetime.microsecond now).
  generalize dependent (datetime.ordinal now).
  intros day us Hus Hshort instant Hnow instant' ->.
  numerals.
  repeat case_bool_decide; Z.div_mod_to_equations; lia.
Qed.

(** The coroutine [schedule_check], for a delay of at most a day: the check
    begins when the delay is over, the rescheduling call comes a day and
    the duration of the check after the start. *)
Lemma schedule_check_timeline seconds_delay start took :
  0 ≤ seconds_delay ≤ datetime.us_per_day →
  timeline (ManagerBot.schedule_check seconds_delay) start took
  = [(start, Sleep seconds_delay);
     (start + seconds_delay, Action);
     (start + seconds_delay + took,
      Sleep (datetime.us_per_day - seconds_delay));
     (start + datetime.us_per_day + took, Rearm)].
Proof.
  intros Hdelay. unfold ManagerBot.schedule_check. cbn [timeline].
  rewrite !Z.max_r by lia.
  by replace (start + seconds_delay + took
              + (datetime.us_per_day - seconds_delay))
    with (start + datetime.us_per_day + took) by lia.
Qed.

(** X10. For an interval that divides 24, every task that
    [schedule_random_checks] creates sleeps less than a day before its
    check, so that the sleep after the check is the positive rest of the
    day: the check begins at the task's fire time, and the rescheduling
    call is due exactly one day, and the duration of the check, after the
    scheduling.  Only a task that is still armed then makes the call: a
    rescheduling cancels every task of the scheduling before it arms the
    new ones, so the siblings still asleep when one task makes the call
    never make theirs. *)
Theorem status_task_rearms_after_a_day self w (j : nat) t took :
  let k := REMINDER_INTERVAL_HOURS CONFIG in
  let now := clock w 0%nat in
  let r := ManagerBot.schedule_random_checks CONFIG self w in
  let handle := (length (tasks w) + j)%nat in
  0 < k → (k | 24) → datetime.valid now → 0 ≤ took →
  tasks r.2 !! handle = Some t →
  (window t = Some (Z.of_nat j * k)
   ∧ ManagerBot.status_checks r.1 !! (Z.of_nat j * k) = Some handle)
  ∧ 0 ≤ seconds_delay t < datetime.us_per_day
  ∧ timeline (ManagerBot.schedule_check (seconds_delay t))
             (datetime.to_us now) took
    = [(datetime.to_us now, Sleep (seconds_delay t));
       (fire_time now t, Action);
       (fire_time now t + took,
        Sleep (datetime.us_per_day - seconds_delay t));
       (datetime.to_us now + datetime.us_per_day + took, Rearm)]
  ∧ ∀ self' w',
      ManagerBot.status_checks self' = ManagerBot.status_checks r.1 →
      tasks w' !! handle = Some t →
      tasks (ManagerBot.schedule_random_checks CONFIG self' w').2 !! handle
      = Some (task_cancel t).
Proof.
  intros k now r handle Hk Hdiv Hvalid Htook Ht.
  pose proof (py_range_length k Hk Hdiv) as Hlen.
  assert (∀ self0 w0,
            ManagerBot.schedule_random_checks CONFIG self0 w0
            = arming CONFIG self0 w0 (length (py_range 0 24 k))) as Hcall
    by (intros; by apply schedule_is_arming).
  unfold r in *. rewrite Hcall in *.
  destruct (arming_state CONFIG self w (length (py_range 0 24 k)))
    as (Htasks & _ & Hin).
  destruct (cancel_all_frame
              (map_to_list (ManagerBot.status_checks self)).*2 w)
    as (_ & _ & Hsame).
  rewrite take_ge in Htasks, Hin by (fold k; lia). fold k in Htasks, Hin.
  unfold handle in Ht.
  rewrite Htasks, lookup_app_r in Ht by lia.
  rewrite Hsame in Ht.
  replace (length (tasks w) + j - length (tasks w))%nat with j in Ht by lia.
  fold now in Ht.
  assert (is_Some (py_range 0 24 k !! j)) as [h Hh].
  { apply lookup_lt_is_Some. apply lookup_lt_Some in Ht.
    by rewrite window_tasks_length in Ht. }
  rewrite (window_tasks_lookup _ _ _ _ _ _ Hh) in Ht. injection Ht as <-.
  assert (j < Z.to_nat (24 `div` k))%nat as Hj
    by (rewrite <- Hlen; by eapply lookup_lt_Some).
  pose proof (Hin _ _ Hh) as Hregistered.
  rewrite py_range_lookup in Hh by done. injection Hh as <-.
  split; [done|].
  assert (Z.of_nat j * k + k ≤ 24) as Hlast.
  { destruct Hdiv as [q Hq].
    assert (24 `div` k = q) as Hquot by (rewrite Hq; by apply Z.div_mul; lia).
    rewrite Hquot in Hj. nia. }
  assert (0 ≤ Z.of_nat j * k) as Hfirst by nia.
  pose proof (Z.mod_pos_bound (entropy w j) (k * 60) ltac:(lia)) as Hoffset.
  pose proof (valid_within_day _ Hvalid) as Hnow.
  destruct Hvalid as (_ & _ & _ & Hus).
  assert (0 ≤ seconds_delay
                (window_task k now (Z.of_nat j * k) (entropy w j))
          < datetime.us_per_day) as Hdelay.
  { unfold window_task, planned, not_before, offset_of; simpl.
    clear Hregistered Hin Htasks.
    generalize dependent (entropy w j `mod` (k * 60)).
    generalize dependent (Z.of_nat j * k).
    intros h Hlast Hfirst offset Hoffset.
    numerals. case_bool_decide; lia. }
  split; [done|split].
  - rewrite schedule_check_timeline by lia. unfold fire_time. done.
  - intros self' w' Hsame' Hstill.
    rewrite Hcall.
    destruct (arming_state CONFIG self' w' (length (py_range 0 24 k)))
      as (-> & _).
    destruct (cancel_all_frame
                (map_to_list (ManagerBot.status_checks self')).*2 w')
      as (_ & _ & Hsame2).
    rewrite lookup_app_l
      by (rewrite Hsame2; by eapply lookup_lt_Some).
    rewrite cancel_all_lookup, Hstill, bool_decide_eq_true_2; [done|].
    apply list_elem_of_fmap.
    exists (Z.of_nat j * k, (length (tasks w) + j)%nat). split; [done|].
    apply elem_of_map_to_list. by rewrite Hsame'.
Qed.

End timers.

(** ** The objects [on_ready] creates *)

Section objects.
Context (CONFIG : config) `{!Strftime}.

Let k : Z := REMINDER_INTERVAL_HOURS CONFIG.

Lemma check_channels_quiet w : quiet w (check_channels CONFIG w).2.
Proof.
  unfold check_channels, get_channel; simpl.
  by destruct (channels w 0%nat _), (channels w 1%nat _), (channels w 2%nat _).
Qed.

Lemma send_welcome_message_quiet cid name w :
  quiet w (send_welcome_message cid name w).2.
Proof.
  unfold send_welcome_message, get_channel; simpl.
  by destruct (channels w 0%nat cid).
Qed.

(** The constructor of the reminder starts the loop: one task more. *)
Lemma reminder_init_state w :
  let r := ReminderBot.init CONFIG w in
  tasks r.2 = tasks w ++ [mk_task (Reminder_loop k) false]
  ∧ disk r.2 = disk w.
Proof.
  unfold ReminderBot.init, ReminderBot.load_state, create_task; simpl.
  by destruct (disk w !! _).
Qed.

Lemma cancel_all_disk handles w :
  disk (ManagerBot.cancel_all handles w) = disk w.
Proof.
  revert w. induction handles as [|h handles IH]; intros w; simpl; [done|].
  by rewrite IH.
Qed.

Lemma arm_loop_disk now hours self w :
  disk (foldl (ManagerBot.arm CONFIG now) (self, w) hours).2 = disk w.
Proof.
  revert self w. induction hours as [|h hours IH]; intros self w; [done|].
  cbn [foldl].
  destruct (ManagerBot.arm CONFIG now (self, w) h) as [self1 w1] eqn:Harm.
  rewrite IH. unfold ManagerBot.arm, randint, create_task in Harm.
  simpl in Harm. by injection Harm as _ <-.
Qed.

(** The constructor of the manager registers no task of before: it creates
    the tasks of the windows, and cancels none. *)
Lemma manager_init_state w :
  let r := ManagerBot.init CONFIG w in
  tasks r.2
  = tasks w ++ window_tasks k (clock w 0%nat) (py_range 0 24 k) (entropy w)
  ∧ disk r.2 = disk w
  ∧ ∀ i handle,
      ManagerBot.status_checks r.1 !! i = Some handle →
      (length (tasks w) ≤ handle)%nat.
Proof.
  unfold ManagerBot.init.
  destruct (ManagerBot.load_state CONFIG (ManagerBot.mk [] None ∅) w)
    as [self w1] eqn:Hload.
  assert (ManagerBot.status_checks self = ∅ ∧ tasks w1 = tasks w
          ∧ disk w1 = disk w ∧ clock w1 = clock w ∧ entropy w1 = entropy w)
    as (Hempty & Htasks & Hdisk & Hclock & Hentropy).
  { unfold ManagerBot.load_state in Hload.
    destruct (disk w !! _) as [[]|]; by injection Hload as <- <-. }
  cbn zeta.
  rewrite (schedule_is_arming CONFIG self w1 (length (py_range 0 24 k)))
    by done.
  destruct (arming_state CONFIG self w1 (length (py_range 0 24 k)))
    as (Hnew & Hout & Hin).
  fold k in Hnew, Hout, Hin.
  rewrite Hempty, map_to_list_empty, take_ge in * by done.
  simpl in Hnew. rewrite Htasks, Hclock, Hentropy in *.
  split; [done|]. split.
  - unfold arming, datetime_now. rewrite Hempty, map_to_list_empty. simpl.
    by rewrite arm_loop_disk.
  - intros i handle Hi. destruct (decide (i ∈ py_range 0 24 k)) as [Hyes|Hno].
    + apply list_elem_of_lookup in Hyes as [j Hj].
      rewrite (Hin _ _ Hj) in Hi. injection Hi as <-. lia.
    + by rewrite (Hout _ Hno) in Hi.
Qed.


(** The constructor of the tracker creates the tracker's task. *)
Lemma tracker_init_state w :
  let r := JobTracker.init CONFIG w in
  (∃ seconds_until_target,
     tasks r.2
     = tasks w ++ [mk_task (Schedule_job_check seconds_until_target) false])
  ∧ disk r.2 = disk w
  ∧ r.1.2 = Some (length (tasks w)).
Proof.
  unfold JobTracker.init.
  destruct (JobTracker.load_state CONFIG (JobTracker.mk [] None) w)
    as [self w1] eqn:Hload.
  assert (tasks w1 = tasks w ∧ disk w1 = disk w) as (Htasks & Hdisk).
  { unfold JobTracker.load_state in Hload.
    destruct (disk w !! _) as [[]|]; by injection Hload as <- <-. }
  destruct (schedule_daily_check_state None w1) as (Hhandle & Hnew).
  destruct (JobTracker.schedule_daily_check None w1) as [task w2] eqn:Hsched.
  simpl in *. rewrite Htasks in *. split; [by eexists|]. split; [|done].
  unfold JobTracker.schedule_daily_check, datetime_now, create_task in Hsched.
  simpl in Hsched. injection Hsched as _ <-. done.
Qed.

(** [on_ready] up to the constructors of the manager and of the tracker:
    what comes before them writes no file, and creates one task, that of
    the reminder loop. *)
Lemma on_ready_stages user_name user_id w :
  ∃ reminder w1,
    (tasks w1 = tasks w ++ [mk_task (Reminder_loop k) false]
     ∧ disk w1 = disk w)
    ∧ on_ready CONFIG user_name user_id w
      = let '(manager, w2) := ManagerBot.init CONFIG w1 in
        let '(tracker, task, w3) := JobTracker.init CONFIG w2 in
        (mk_workflows reminder manager tracker task,
         print "All systems initialized successfully!" w3).
Proof.
  unfold on_ready.
  match goal with
  | |- context [check_channels CONFIG ?w0] =>
      pose proof (check_channels_quiet w0) as Hq1;
      destruct (check_channels CONFIG w0) as [ok w1]
  end.
  cbn [foldl].
  repeat match goal with
  | |- context [send_welcome_message ?cid ?name ?w0] =>
      let Hq := fresh "Hq" in
      pose proof (send_welcome_message_quiet cid name w0) as Hq;
      destruct (send_welcome_message cid name w0) as [? ?]
  end.
  match goal with
  | |- context [ReminderBot.init CONFIG ?w0] =>
      destruct (reminder_init_state w0) as [Htasks5 Hdisk5];
      destruct (ReminderBot.init CONFIG w0) as [reminder w5]
  end.
  exists reminder, w5. split; [|done].
  simpl in *.
  repeat match goal with
  | Hq : quiet _ _ |- _ => destruct Hq as [? ?]
  end.
  rewrite Htasks5, Hdisk5.
  destruct ok; simpl in *; split; congruence.
Qed.


(** X11. Every run of [on_ready] creates the timers anew and cancels none:
    for an interval that divides 24 it adds 24 / intervalHours + 2 armed
    tasks to those of before, which all stay as they were: the task of the
    reminder loop, then the tasks of the windows, then the task of the
    tracker.  The new manager registers handles of new tasks only, and the
    new [job_task] is the last task created.  No file is written. *)
Theorem on_ready_arms_new_timers user_name user_id w :
  let r := on_ready CONFIG user_name user_id w in
  let windows := Z.to_nat (24 `div` k) in
  0 < k → (k | 24) →
  (∃ checks seconds_until_target,
     tasks r.2
     = tasks w
       ++ mk_task (Reminder_loop k) false
          :: checks
          ++ [mk_task (Schedule_job_check seconds_until_target) false]
     ∧ length checks = windows
     ∧ Forall (λ t, cancelled t = false ∧ is_Some (window t)) checks)
  ∧ armed r.2 = (armed w + windows + 2)%nat
  ∧ (∀ i handle,
       ManagerBot.status_checks (manager_bot r.1) !! i = Some handle →
       (length (tasks w) < handle)%nat)
  ∧ job_task r.1 = Some (length (tasks w) + windows + 1)%nat
  ∧ disk r.2 = disk w.
Proof.
  intros r windows Hk Hdiv.
  destruct (on_ready_stages user_name user_id w)
    as (reminder & w1 & [Htasks1 Hdisk1] & Hready).
  unfold r. rewrite Hready. clear r Hready.
  destruct (manager_init_state w1) as (Htasks2 & Hdisk2 & Hhandles).
  destruct (ManagerBot.init CONFIG w1) as [manager w2].
  destruct (tracker_init_state w2) as ((d & Htasks3) & Hdisk3 & Htask).
  destruct (JobTracker.init CONFIG w2) as [[tracker task] w3].
  simpl in *. fold k in Htasks2.
  assert (length (py_range 0 24 k) = windows) as Hlen
    by by apply py_range_length.
  set (checks := window_tasks k (clock w1 0%nat) (py_range 0 24 k)
                              (entropy w1)) in *.
  assert (length checks = windows) as Hchecks
    by (unfold checks; by rewrite window_tasks_length).
  set (new := mk_task (Reminder_loop k) false
              :: checks ++ [mk_task (Schedule_job_check d) false]).
  assert (tasks w3 = tasks w ++ new) as Hall.
  { rewrite Htasks3, Htasks2, Htasks1. unfold new.
    by rewrite <- !app_assoc. }
  assert (Forall (λ t, cancelled t = false) new) as Hactive.
  { unfold new. apply Forall_cons_2; [done|]. apply Forall_app. split.
    - eapply Forall_impl; [apply window_tasks_active|]. by intros t0 [? _].
    - by apply Forall_cons_2. }
  assert (length new = (windows + 2)%nat) as Hnew
    by (unfold new; simpl; rewrite length_app, Hchecks; simpl; lia).
  split; [|split; [|split; [|split]]].
  - exists checks, d. split; [done|]. split; [done|].
    apply window_tasks_active.
  - unfold armed, print. cbn [tasks].
    rewrite Hall, filter_app, length_app, (filter_all _ new).
    + rewrite Hnew. lia.
    + eapply Forall_impl; [exact Hactive|].
      intros t0 Ht0. unfold active. by rewrite Ht0.
  - intros i handle Hi. apply Hhandles in Hi.
    rewrite Htasks1, length_app in Hi. simpl in Hi. lia.
  - rewrite Htask, Htasks2, length_app, Htasks1, length_app, Hchecks.
    simpl. f_equal. lia.
  - congruence.
Qed.

(** *** The welcome messages *)

Lemma send_welcome_message_world cid name w :
  let r := send_welcome_message cid name w in
  channels r.2 = (λ n, channels w (S n))
  ∧ match channels w 0%nat cid with
    | Some ch =>
        ∃ e, title e = "Hello There!"
             ∧ outbox r.2 = outbox w ++ [Posted ch (next_message_id w) (Embed e)]
             ∧ next_message_id r.2 = next_message_id w + 1
    | None => outbox r.2 = outbox w ∧ next_message_id r.2 = next_message_id w
    end.
Proof.
  unfold send_welcome_message, get_channel; simpl.
  destruct (channels w 0%nat cid); simpl; (split; [done|]); [|done].
  eexists. split; [|split; [reflexivity|done]]. done.
Qed.

Lemma check_channels_lookups w :
  let r := check_channels CONFIG w in
  channels r.2 = (λ n, channels w (S (S (S n)))) ∧ outbox r.2 = outbox w.
Proof.
  unfold check_channels, get_channel; simpl.
  by destruct (channels w 0%nat _), (channels w 1%nat _), (channels w 2%nat _).
Qed.

Lemma arm_loop_outbox now hours self w :
  outbox (foldl (ManagerBot.arm CONFIG now) (self, w) hours).2 = outbox w.
Proof.
  revert self w. induction hours as [|h hours IH]; intros self w; [done|].
  cbn [foldl].
  destruct (ManagerBot.arm CONFIG now (self, w) h) as [self1 w1] eqn:Harm.
  rewrite IH. unfold ManagerBot.arm, randint, create_task in Harm.
  simpl in Harm. by injection Harm as _ <-.
Qed.

Lemma cancel_all_outbox handles w :
  outbox (ManagerBot.cancel_all handles w) = outbox w.
Proof.
  revert w. induction handles as [|h handles IH]; intros w; simpl; [done|].
  by rewrite IH.
Qed.

(** The constructors post nothing. *)
Lemma constructors_outbox w :
  outbox (ReminderBot.init CONFIG w).2 = outbox w
  ∧ outbox (ManagerBot.init CONFIG w).2 = outbox w
  ∧ outbox (JobTracker.init CONFIG w).2 = outbox w.
Proof.
  split; [|split].
  - unfold ReminderBot.init, ReminderBot.load_state, create_task; simpl.
    by destruct (disk w !! _).
  - unfold ManagerBot.init, ManagerBot.load_state,
      ManagerBot.schedule_random_checks, datetime_now.
    destruct (disk w !! _) as [[]|]; simpl;
      by rewrite arm_loop_outbox, ?cancel_all_outbox.
  - unfold JobTracker.init, JobTracker.load_state,
      JobTracker.schedule_daily_check, datetime_now, create_task.
    by destruct (disk w !! _) as [[]|].
Qed.

(** X12. What [on_ready] posts is the welcome message, once to each of the
    reminder, status and job channels that resolves in the lookup made for
    it (the fourth to sixth of the run, after those of [check_channels]),
    in this order; the constructors post nothing.  [!welcome] looks its
    own channel up again: it posts the welcome message there when the
    lookup resolves, and the confirmation in either case. *)
Theorem welcome_goes_where_it_resolves user_name user_id ctx name w :
  let r := on_ready CONFIG user_name user_id w in
  let resolved :=
    omap id [channels w 3%nat (REMINDER_CHANNEL_ID CONFIG);
             channels w 4%nat (STATUS_CHANNEL_ID CONFIG);
             channels w 5%nat (JOB_CHANNEL_ID CONFIG)] in
  let welcome d ch :=
    ∃ sent_id e, d = Posted ch sent_id (Embed e) ∧ title e = "Hello There!" in
  let confirmation sent_id :=
    Posted ctx sent_id (Text "Welcome message sent!") in
  (∃ posts, outbox r.2 = outbox w ++ posts ∧ Forall2 welcome posts resolved)
  ∧ match channels w 0%nat (channel_id ctx) with
    | Some ch =>
        ∃ d, welcome d ch
             ∧ outbox (welcome_command ctx name w)
               = outbox w ++ [d; confirmation (next_message_id w + 1)]
    | None =>
        outbox (welcome_command ctx name w)
        = outbox w ++ [confirmation (next_message_id w)]
    end.
Proof.
  intros r resolved welcome confirmation. split.
  - unfold r, on_ready.
    match goal with
    | |- context [check_channels CONFIG ?w0] =>
        destruct (check_channels_lookups w0) as [Hc0 Ho0];
        destruct (check_channels CONFIG w0) as [ok w1]
    end.
    cbn [foldl].
    match goal with
    | |- context [send_welcome_message ?cid ?name ?w0] =>
        destruct (send_welcome_message_world cid name w0) as [Hc1 Ho1];
        destruct (send_welcome_message cid name w0) as [s1 w2]
    end.
    match goal with
    | |- context [send_welcome_message ?cid ?name ?w0] =>
        destruct (send_welcome_message_world cid name w0) as [Hc2 Ho2];
        destruct (send_welcome_message cid name w0) as [s2 w3]
    end.
    match goal with
    | |- context [send_welcome_message ?cid ?name ?w0] =>
        destruct (send_welcome_message_world cid name w0) as [Hc3 Ho3];
        destruct (send_welcome_message cid name w0) as [s3 w4]
    end.
    match goal with
    | |- context [ReminderBot.init CONFIG ?w0] =>
        destruct (constructors_outbox w0) as (Ho4 & _);
        destruct (ReminderBot.init CONFIG w0) as [reminder w5]
    end.
    destruct (constructors_outbox w5) as (_ & Ho5 & _).
    destruct (ManagerBot.init CONFIG w5) as [manager w6].
    destruct (constructors_outbox w6) as (_ & _ & Ho6).
    destruct (JobTracker.init CONFIG w6) as [[tracker task] w7].
    cbn [fst snd] in *.
    assert (channels w1 = (λ n, channels w (S (S (S n))))
            ∧ outbox w1 = outbox w) as [Hc Ho] by done.
    clear Hc0 Ho0.
    assert (∀ line, channels (print line (if ok then w1 else
              print ("Please check the channel IDs in your .env file and ensure the bot has proper permissions." +:+ nl)
                (print (nl +:+ "WARNING: Some channels are inaccessible. The bot will continue to run, but some features may not work properly.") w1)))
            = channels w1
            ∧ outbox (print line (if ok then w1 else
              print ("Please check the channel IDs in your .env file and ensure the bot has proper permissions." +:+ nl)
                (print (nl +:+ "WARNING: Some channels are inaccessible. The bot will continue to run, but some features may not work properly.") w1)))
              = outbox w1) as Hwarn by (intros line; by destruct ok).
    destruct (Hwarn (nl +:+ "Sending welcome messages to channels..."))
      as [Hcw How].
    rewrite Hcw in Hc1, Ho1. rewrite How in Ho1. rewrite Hc in Hc1, Ho1.
    rewrite Hc1 in Hc2, Ho2. rewrite Hc2 in Ho3.
    change (outbox (print _ w7)) with (outbox w7).
    rewrite Ho6, Ho5. simpl in Ho4. rewrite Ho4.
    unfold resolved. simpl.
    destruct (channels w 3%nat _), (channels w 4%nat _), (channels w 5%nat _);
      repeat match goal with
      | H : ∃ e, _ |- _ => destruct H as (? & ? & ? & ?)
      | H : _ ∧ _ |- _ => destruct H as [? ?]
      end;
      (eexists; split;
       [repeat match goal with
               | H : outbox ?x = _ |- context [outbox ?x] => rewrite H
               end;
        rewrite <- ?app_assoc;
        first [reflexivity | symmetry; apply app_nil_r]
       |simpl; repeat constructor; unfold welcome; eauto]).
  - unfold welcome_command.
    destruct (send_welcome_message_world (channel_id ctx) name w) as [_ Ho].
    destruct (send_welcome_message (channel_id ctx) name w) as [sent w1].
    simpl in *. destruct (channels w 0%nat (channel_id ctx)).
    + destruct Ho as (e & He & -> & ->). eexists. split; [by do 2 eexists|].
      by rewrite <- app_assoc.
    + by destruct Ho as [-> ->].
Qed.

End objects.

(** ** A session of the job tracker *)

(** Events that do not close the collection: the replies among them are
    appended and acknowledged, the other messages are passed over. *)
Lemma collect_open channel prompt_id opening rest jobs w :
  Forall (λ e, ¬ closes channel prompt_id e) opening →
  JobTracker.collect channel prompt_id (opening ++ rest) jobs w
  = JobTracker.collect channel prompt_id rest
      (jobs ++ (content <$> replies_to channel prompt_id opening))
      (foldl (λ w r, add_reaction r white_check_mark w) w
             (replies_to channel prompt_id opening)).
Proof.
  intros Hopen. revert jobs w.
  induction Hopen as [|[m|] opening Hm _ IH]; intros jobs w.
  - simpl. by rewrite app_nil_r.
  - unfold replies_to. simpl.
    destruct (JobTracker.check channel prompt_id m) eqn:Hcheck; [|apply IH].
    destruct (JobTracker.terminal (content m)) eqn:Hterminal.
    + destruct Hm. right. exists m. split; [done|]. split.
      * by apply tracker_check_correlated.
      * by apply terminal_keyword.
    + simpl. rewrite IH. by rewrite <- app_assoc.
  - destruct Hm. by left.
Qed.

Section session.
Context (CONFIG : config) `{!Strftime}.

(** X13. A reply to the tracker's prompt is acknowledged with the check
    mark when it arrives, among whatever other messages; it is on record
    only once the collection has closed.  While no keyword has been
    replied and the timer has not elapsed, the run is suspended with the
    applications and the file as they were; the event that closes the
    collection, keyword or timer, makes one application of every reply
    acknowledged, in their order, and writes the file. *)
Theorem applications_are_recorded_at_the_close self w ch opening stop later :
  channels w 0%nat (JOB_CHANNEL_ID CONFIG) = Some ch →
  Forall (λ e, ¬ closes ch (next_message_id w) e) opening →
  closes ch (next_message_id w) stop →
  let replies := replies_to ch (next_message_id w) opening in
  let today := Some (strftime "%Y-%m-%d" (clock w 0%nat)) in
  let pending := JobTracker.check_applications CONFIG opening self w in
  let closed :=
    JobTracker.check_applications CONFIG (opening ++ stop :: later) self w in
  (pending.2 = Suspended
   ∧ JobTracker.applications pending.1.1 = JobTracker.applications self
   ∧ disk pending.1.2 = disk w
   ∧ ∃ e, outbox pending.1.2
          = outbox w
            ++ Posted ch (next_message_id w) (Embed e)
               :: ((λ r, Reacted (msg_id r) white_check_mark) <$> replies))
  ∧ (closed.2 = Returned
     ∧ JobTracker.applications closed.1.1
       = JobTracker.applications self
         ++ ((λ r, mk_application (content r) today "Applied" "") <$> replies)
     ∧ disk closed.1.2 !! data_file CONFIG "job_applications.json"
       = Some (job_applications_json (JobTracker.applications closed.1.1)
                                     today)).
Proof.
  intros Hch Hopen Hstop replies today pending closed. split.
  - unfold pending, JobTracker.check_applications, get_channel, datetime_now.
    simpl. rewrite Hch. simpl.
    match goal with
    | |- context [JobTracker.collect ch ?i opening ?jobs ?w0] =>
        pose proof (collect_open ch i opening [] jobs w0 Hopen) as Hcollect;
        rewrite app_nil_r in Hcollect; rewrite Hcollect; clear Hcollect
    end.
    rewrite reactions_world. simpl.
    fold replies.
    destruct (content <$> replies); simpl; repeat split; try done;
      eexists; by rewrite <- app_assoc.
  - unfold closed, JobTracker.check_applications, get_channel, datetime_now.
    simpl. rewrite Hch. simpl.
    rewrite (collect_open _ _ _ _ _ _ Hopen), reactions_world.
    fold replies.
    assert (∀ jobs w0, ∃ w',
              JobTracker.collect ch (next_message_id w) (stop :: later) jobs w0
              = (jobs, w', Returned)
              ∧ genai w' = genai w0 ∧ disk w' = disk w0) as Hclose.
    { intros jobs w0. destruct Hstop as [->|(m & -> & Hc & Hkey)]; simpl.
      - by eexists.
      - apply tracker_check_correlated in Hc. apply terminal_keyword in Hkey.
        rewrite Hc, Hkey. by eexists. }
    match goal with
    | |- context [JobTracker.collect ch _ (stop :: later) ?jobs ?w0] =>
        destruct (Hclose jobs w0) as (w' & -> & Hgenai & Hdisk)
    end.
    simpl in Hgenai, Hdisk. simpl.
    destruct (content <$> replies) as [|job jobs] eqn:Hjobs; simpl.
    + apply fmap_nil_inv in Hjobs. rewrite Hjobs. simpl.
      rewrite app_nil_r. split; [done|]. split; [done|].
      apply lookup_insert_eq.
    + unfold JobTracker.get_application_analysis.
      assert (JobTracker.new_application
                (JobTracker.mk (JobTracker.applications self) today)
                <$> job :: jobs
              = (λ r, mk_application (content r) today "Applied" "")
                  <$> replies) as Hrecords.
      { rewrite <- Hjobs, <- list_fmap_compose. done. }
      destruct (genai w' _); simpl; (split; [done|]);
        (split; [by rewrite <- Hrecords|]); apply lookup_insert_eq.
Qed.

End session.

(** ** The further properties on sample inputs *)

Lemma sample_now_valid : datetime.valid sample_now.
Proof. unfold datetime.valid; simpl; lia. Defined.

(** At 10:30:15.5 of the Saturday, the tracker's task is armed for
    20:00:00.5 of that day. *)
Lemma daily_check_is_armed_witness :
  let w := sample_world sample_channel (λ _, Response "") in
  let r := JobTracker.schedule_daily_check (H := sample_strftime) None w in
  datetime.valid (clock w 0%nat)
  ∧ ∃ t,
      daily_task r = Some t
      ∧ fire_time sample_now t
        = datetime.to_us (datetime.mk 739017 20 0 0 500000).
Proof.
  split; [exact sample_now_valid|].
  destruct (daily_check_is_armed (H := sample_strftime) None
              (sample_world sample_channel (λ _, Response ""))
              sample_now_valid) as (_ & (t & Ht & _ & _ & Hfire) & _).
  exists t. split; [exact Ht|].
  etrans; [exact Hfire|]. vm_compute. reflexivity.
Defined.

(** The check of the Saturday took two minutes: the task re-arms on the
    Sunday at 20:02:00.5, for the Monday. *)
Lemma job_check_skips_a_day_witness :
  let w := sample_world sample_channel (λ _, Response "") in
  let w' := with_clock (λ _, sample_rearm) w in
  let first := JobTracker.schedule_daily_check (H := sample_strftime) None w in
  let second :=
    JobTracker.schedule_daily_check (H := sample_strftime) first.1 w' in
  (datetime.valid sample_now ∧ datetime.valid sample_rearm
   ∧ daily_task first = Some (mk_task (Schedule_job_check 34185000000) false))
  ∧ ∃ t',
      daily_task second = Some t'
      ∧ fire_time sample_rearm t' `div` datetime.us_per_day = 739019.
Proof.
  assert (datetime.valid sample_rearm) as Hvalid
    by (unfold datetime.valid; simpl; lia).
  assert (daily_task
            (JobTracker.schedule_daily_check (H := sample_strftime) None
               (sample_world sample_channel (λ _, Response "")))
          = Some (mk_task (Schedule_job_check 34185000000) false)) as Hfirst
    by (vm_compute; reflexivity).
  assert (0 ≤ 120000000) as Htook by lia.
  assert (datetime.microsecond sample_now + 120000000
          < 4 * datetime.us_per_hour) as Hshort by (vm_compute; reflexivity).
  assert (datetime.to_us sample_rearm
          = datetime.to_us sample_now
            + elapsed (JobTracker.schedule_job_check 34185000000) 120000000)
    as Hclock by (vm_compute; reflexivity).
  split; [split; [exact sample_now_valid|split; [exact Hvalid|exact Hfirst]]|].
  destruct (job_check_skips_a_day (H := sample_strftime) None
              (sample_world sample_channel (λ _, Response ""))
              (Some 0%nat)
              (with_clock (λ _, sample_rearm)
                 (sample_world sample_channel (λ _, Response "")))
              120000000 (mk_task (Schedule_job_check 34185000000) false)
              sample_now_valid Hvalid Htook Hshort Hfirst Hclock)
    as (t' & Ht' & Hday).
  exists t'. split; [exact Ht'|].
  etrans; [exact Hday|]. vm_compute. reflexivity.
Defined.

(** The task of the window that starts at 0, created at 10:30:15.5 with
    the draw 0, sleeps 13:29:45; with a check of five seconds, its
    rescheduling call is due a day and five seconds after 10:30:15.5; a
    rescheduling cancels it. *)
Lemma status_task_rearms_after_a_day_witness :
  let w := sample_world sample_channel (λ _, Response "") in
  let r :=
    ManagerBot.schedule_random_checks (H := sample_strftime) sample_config
                                      (ManagerBot.mk [] None ∅) w in
  let t := mk_task (Schedule_check 48585000000 0) false in
  (0 < 3 ∧ (3 | 24) ∧ datetime.valid sample_now
   ∧ tasks r.2 !! 0%nat = Some t)
  ∧ last (timeline (ManagerBot.schedule_check 48585000000)
                   (datetime.to_us sample_now) 5000000)
    = Some (datetime.to_us sample_now + datetime.us_per_day + 5000000, Rearm)
  ∧ tasks (ManagerBot.schedule_random_checks (H := sample_strftime)
             sample_config r.1 r.2).2 !! 0%nat
    = Some (task_cancel t).
Proof.
  assert (0 < 3) as Hk by lia.
  assert ((3 | 24)) as Hdiv by (exists 8; reflexivity).
  assert (0 ≤ 5000000) as Htook by lia.
  assert (tasks (ManagerBot.schedule_random_checks (H := sample_strftime)
                   sample_config (ManagerBot.mk [] None ∅)
                   (sample_world sample_channel (λ _, Response ""))).2
            !! 0%nat
          = Some (mk_task (Schedule_check 48585000000 0) false)) as Htask
    by (vm_compute; reflexivity).
  split; [split; [exact Hk|split; [exact Hdiv|split;
                   [exact sample_now_valid|exact Htask]]]|].
  destruct (status_task_rearms_after_a_day sample_config (H := sample_strftime)
              (ManagerBot.mk [] None ∅)
              (sample_world sample_channel (λ _, Response ""))
              0 (mk_task (Schedule_check 48585000000 0) false) 5000000
              Hk Hdiv sample_now_valid Htook Htask)
    as (_ & _ & Htimeline & Hcancel).
  split.
  - etrans; [exact (f_equal last Htimeline)|]. reflexivity.
  - exact (Hcancel _ _ eq_refl Htask).
Defined.

(** Two runs of [on_ready] in succession leave twenty tasks armed. *)
Lemma on_ready_arms_new_timers_witness :
  let w := sample_world sample_channel (λ _, Response "") in
  let once := on_ready (H := sample_strftime) sample_config "bot" 1 w in
  let twice := on_ready (H := sample_strftime) sample_config "bot" 1 once.2 in
  (0 < 3 ∧ (3 | 24))
  ∧ armed once.2 = 10%nat
  ∧ armed twice.2 = 20%nat.
Proof.
  assert (0 < 3) as Hk by lia.
  assert ((3 | 24)) as Hdiv by (exists 8; reflexivity).
  split; [split; [exact Hk|exact Hdiv]|].
  destruct (on_ready_arms_new_timers sample_config (H := sample_strftime)
              "bot" 1 (sample_world sample_channel (λ _, Response ""))
              Hk Hdiv) as (_ & Honce & _).
  destruct (on_ready_arms_new_timers sample_config (H := sample_strftime)
              "bot" 1
              (on_ready (H := sample_strftime) sample_config "bot" 1
                 (sample_world sample_channel (λ _, Response ""))).2
              Hk Hdiv) as (_ & Htwice & _).
  split; [exact Honce|].
  etrans; [exact Htwice|]. rewrite Honce. reflexivity.
Defined.


(** A bot's message and one reply, then the timer: the reply is
    acknowledged while the run is pending, and recorded at the close. *)
Lemma applications_are_recorded_at_the_close_witness :
  let w := sample_world sample_channel (λ _, Response "Keep going.") in
  let reply := sample_reply 33 "Acme - Engineer" in
  let opening := [on_message sample_bot_message; on_message reply] in
  let run events :=
    JobTracker.check_applications (H := sample_strftime) sample_config
                                  events (JobTracker.mk [] None) w in
  (channels w 0%nat 33 = Some (mk_channel 33)
   ∧ Forall (λ e, ¬ closes (mk_channel 33) 1000 e) opening
   ∧ closes (mk_channel 33) 1000 timer_elapsed)
  ∧ (run opening).2 = Suspended
  ∧ JobTracker.applications (run opening).1.1 = []
  ∧ JobTracker.applications (run (opening ++ [timer_elapsed])).1.1
    = [mk_application "Acme - Engineer" (Some "%Y-%m-%d") "Applied" ""].
Proof.
  assert (Forall (λ e, ¬ closes (mk_channel 33) 1000 e)
            [on_message sample_bot_message;
             on_message (sample_reply 33 "Acme - Engineer")]) as Hopen.
  { constructor; [|constructor; [|constructor]].
    - intros [Heq|(m & Heq & (_ & Hbot & _) & _)]; [discriminate Heq|].
      injection Heq as <-. discriminate Hbot.
    - intros [Heq|(m & Heq & _ & Hkey)]; [discriminate Heq|].
      injection Heq as <-. apply terminal_keyword in Hkey.
      vm_compute in Hkey. discriminate Hkey. }
  assert (closes (mk_channel 33) 1000 timer_elapsed) as Hstop
    by (left; reflexivity).
  split; [split; [reflexivity|split; [exact Hopen|exact Hstop]]|].
  destruct (applications_are_recorded_at_the_close sample_config
              (H := sample_strftime) (JobTracker.mk [] None)
              (sample_world sample_channel (λ _, Response "Keep going."))
              (mk_channel 33) _ timer_elapsed [] eq_refl Hopen Hstop)
    as ((Hpending & Hsame & _) & (_ & Hclosed & _)).
  split; [exact Hpending|]. split; [exact Hsame|].
  etrans; [exact Hclosed|]. vm_compute. reflexivity.
Defined.

(** With no channel in the cache, a status check returns at once, reply or
    not. *)
Lemma actions_skip_without_channel_witness :
  let w := sample_world (λ _, None) (λ _, Response "") in
  let r :=
    ManagerBot.check_status (H := sample_strftime) sample_config
      [on_message (sample_reply 22 "Writing tests")]
      (ManagerBot.mk [] None ∅) w in
  channels w 0%nat 22 = None
  ∧ r.2 = Returned ∧ outbox r.1.2 = [] ∧ disk r.1.2 = ∅.
Proof.
  destruct (actions_skip_without_channel sample_config (H := sample_strftime)
              (ManagerBot.mk [] None ∅) (JobTracker.mk [] None)
              (sample_world (λ _, None) (λ _, Response ""))
              [on_message (sample_reply 22 "Writing tests")])
    as [Hstatus _].
  destruct (Hstatus eq_refl) as (Hret & Hout & Hdisk & _).
  split; [reflexivity|]. split; [exact Hret|]. split; [exact Hout|exact Hdisk].
Defined.

(** [!status] from channel 99: pending after a bot's message, and
    confirmed, as the third message posted, once the timer has elapsed. *)
Lemma commands_confirm_after_the_action_witness :
  let w := sample_world sample_channel (λ _, Response "") in
  let status events :=
    status_command (H := sample_strftime) sample_config (mk_channel 99) events
                   (ManagerBot.mk [] None ∅) w in
  (channels w 0%nat 22 = Some (mk_channel 22)
   ∧ unrelated (mk_channel 22) 1000 [on_message sample_bot_message])
  ∧ (status [on_message sample_bot_message]).2 = Suspended
  ∧ last (outbox (status [on_message sample_bot_message; timer_elapsed]).1.2)
    = Some (Posted (mk_channel 99) 1002
                   (Text "Manual status check initiated!")).
Proof.
  assert (unrelated (mk_channel 22) 1000 [on_message sample_bot_message])
    as Hpre.
  { constructor; [|constructor]. eexists. split; [reflexivity|].
    intros (_ & Hbot & _). discriminate Hbot. }
  split; [split; [reflexivity|exact Hpre]|].
  destruct (commands_confirm_after_the_action sample_config
              (H := sample_strftime) (mk_channel 99)
              (ManagerBot.mk [] None ∅) (JobTracker.mk [] None)
              (sample_world sample_channel (λ _, Response ""))
              [on_message sample_bot_message] [])
    as (_ & _ & Hstatus & _).
  destruct (Hstatus (mk_channel 22) eq_refl Hpre)
    as (e & (Hpending & _) & _ & Hout).
  split; [exact Hpending|].
  etrans; [exact (f_equal last Hout)|]. reflexivity.
Defined.
